(** * Document generators of Bo_VS_Amazon_Inc: a shallow embedding

    The repository holds three Python scripts that assemble a legal filing
    with ReportLab and write it as a PDF:

    - [gen_complaint.py]  (platypus story, [generate_civil_action_pdf]),
    - [gen_cover.py]      (platypus story with tables, [create_civil_cover_sheet]),
    - [gen_fee_waiver.py] (canvas drawing, [generate_fee_waiver_request]).

    The scripts are embedded as programs of a small state-and-exception
    monad [M].  The state holds the process environment (files, standard
    output and error), the list object the generator appends to, and a log of
    the calls made across the ReportLab boundary.  ReportLab itself (layout,
    serialisation, text splitting, the sample style sheet) is not part of the
    repository; it is taken as the parameter [ReportLab].

    Python [str] values are byte strings holding their UTF-8 encoding;
    Python numbers (int and float alike) are exact rationals. *)

From Stdlib Require Import String Ascii List ZArith QArith Lia Lqa.
From stdpp Require Import base gmap strings list.

Set Warnings "-register-all".
Open Scope string_scope.
Open Scope list_scope.

(** ** Constants of [reportlab.lib] *)

(** [reportlab.lib.units.inch] *)
Definition inch : Q := 72.

(** [reportlab.lib.pagesizes.letter], also exported as [LETTER] *)
Definition letter : Q * Q := ((8.5 * inch)%Q, (11 * inch)%Q).
Definition LETTER : Q * Q := letter.

(** [reportlab.lib.enums] *)
Definition TA_LEFT : Z := 0.
Definition TA_CENTER : Z := 1.
Definition TA_JUSTIFY : Z := 4.

(** [reportlab.lib.colors] *)
Record Color := mkColor { red : Q; green : Q; blue : Q }.
Definition black : Color := mkColor 0 0 0.

(** The line feed written [\n] in the Python literals. *)
Definition LF : string := String "010"%char EmptyString.

(** [str.strip()]: white space removed at both ends.  The characters are
    those of [str.isspace] below U+0080; the literals stripped in the scripts
    hold no other white space at their ends. *)
Definition is_space (c : ascii) : bool :=
  let n := nat_of_ascii c in
  ((9 <=? n)%nat && (n <=? 13)%nat) || ((28 <=? n)%nat && (n <=? 32)%nat).

Fixpoint lstrip (s : string) : string :=
  match s with
  | EmptyString => EmptyString
  | String c rest => if is_space c then lstrip rest else s
  end.

Fixpoint rstrip (s : string) : string :=
  match s with
  | EmptyString => EmptyString
  | String c rest =>
    match rstrip rest with
    | EmptyString => if is_space c then EmptyString else String c EmptyString
    | kept => String c kept
    end
  end.

Definition strip (s : string) : string := rstrip (lstrip s).

(** ** Styles *)

(** A paragraph style: the attributes the generators set, with the font
    name.  The other attributes of ReportLab's [ParagraphStyle] are never
    touched by the scripts and are left out. *)
Inductive Style := mkStyle {
  name : string;
  parent : option Style;
  fontName : string;
  fontSize : Q;
  leading : Q;
  leftIndent : Q;
  alignment : Z;
  spaceBefore : Q;
  spaceAfter : Q;
  bulletFontName : string;
  bulletFontSize : Q;
  bulletIndent : Q;
  textColor : Color
}.

(** Keyword arguments of [ParagraphStyle(name, parent=..., **kw)]. *)
Inductive StyleKw :=
| kw_fontSize (v : Q)
| kw_leading (v : Q)
| kw_leftIndent (v : Q)
| kw_alignment (v : Z)
| kw_spaceBefore (v : Q)
| kw_spaceAfter (v : Q)
| kw_bulletFontName (v : string)
| kw_bulletFontSize (v : Q)
| kw_bulletIndent (v : Q)
| kw_textColor (v : Color).

Definition set_kw (s : Style) (kw : StyleKw) : Style :=
  match s with
  | mkStyle n p fn fs ld li al sb sa bfn bfs bi tc =>
    match kw with
    | kw_fontSize v => mkStyle n p fn v ld li al sb sa bfn bfs bi tc
    | kw_leading v => mkStyle n p fn fs v li al sb sa bfn bfs bi tc
    | kw_leftIndent v => mkStyle n p fn fs ld v al sb sa bfn bfs bi tc
    | kw_alignment v => mkStyle n p fn fs ld li v sb sa bfn bfs bi tc
    | kw_spaceBefore v => mkStyle n p fn fs ld li al v sa bfn bfs bi tc
    | kw_spaceAfter v => mkStyle n p fn fs ld li al sb v bfn bfs bi tc
    | kw_bulletFontName v => mkStyle n p fn fs ld li al sb sa v bfs bi tc
    | kw_bulletFontSize v => mkStyle n p fn fs ld li al sb sa bfn v bi tc
    | kw_bulletIndent v => mkStyle n p fn fs ld li al sb sa bfn bfs v tc
    | kw_textColor v => mkStyle n p fn fs ld li al sb sa bfn bfs bi v
    end
  end.

(** The value a [ParagraphStyle(name, parent=p, **kw)] call constructs: the
    parent's attributes under the new name, then the keyword overrides in
    order.  No registry is consulted and no name is checked. *)
Definition new_style (name_ : string) (parent_ : Style) (kw : list StyleKw) : Style :=
  fold_left set_kw kw
    (mkStyle name_ (Some parent_) (fontName parent_) (fontSize parent_)
       (leading parent_) (leftIndent parent_) (alignment parent_)
       (spaceBefore parent_) (spaceAfter parent_) (bulletFontName parent_)
       (bulletFontSize parent_) (bulletIndent parent_) (textColor parent_)).

(** ** Flowables (platypus) *)

Inductive TableCmd :=
| VALIGN (start stop : Z * Z) (v : string)
| LINEBELOW (start stop : Z * Z) (weight : Q) (c : Color)
| BOTTOMPADDING (start stop : Z * Z) (v : Q).

(** [TableStyle(cmds)] *)
Definition TableStyle (cmds : list TableCmd) : list TableCmd := cmds.

Inductive Flowable :=
| Paragraph (text : string) (style : Style)
| Spacer (width height : Q)
| PageBreak
| Table (data : list (list Flowable)) (hAlign : string) (colWidths : list Q)
        (tstyle : list TableCmd).

(** [t.setStyle(ts)]: adds the commands of [ts] to the table's own. *)
Definition setStyle (t : Flowable) (ts : list TableCmd) : Flowable :=
  match t with
  | Table data hAlign colWidths cmds => Table data hAlign colWidths (cmds ++ ts)
  | other => other
  end.

(** [SimpleDocTemplate(filename, pagesize=..., margins..., metadata...)] *)
Record DocTemplate := SimpleDocTemplate {
  filename : string;
  pagesize : Q * Q;
  leftMargin : Q;
  rightMargin : Q;
  topMargin : Q;
  bottomMargin : Q;
  title : option string;
  author : option string;
  subject : option string
}.

(** ** Canvas (pdfgen) *)

Inductive CanvasOp :=
| op_setTitle (t : string)
| op_setFont (psfontname : string) (size : Q)
| op_drawString (x y : Q) (text : string)
| op_showPage.

(** A canvas: where it will be saved, its page size, and the operations
    recorded on it so far. *)
Record Canvas := mkCanvas {
  c_filename : string;
  c_pagesize : Q * Q;
  c_ops : list CanvasOp
}.

Definition canvas_op (c : Canvas) (op : CanvasOp) : Canvas :=
  mkCanvas (c_filename c) (c_pagesize c) (c_ops c ++ [op]).

Definition setTitle (c : Canvas) (t : string) : Canvas := canvas_op c (op_setTitle t).
Definition setFont (c : Canvas) (f : string) (size : Q) : Canvas := canvas_op c (op_setFont f size).
Definition drawString (c : Canvas) (x y : Q) (text : string) : Canvas :=
  canvas_op c (op_drawString x y text).
Definition showPage (c : Canvas) : Canvas := canvas_op c op_showPage.

(** ** Exceptions and the ReportLab boundary *)

Record exn := mkExn { exn_type : string; exn_msg : string }.

(** The library, as the scripts use it.  [layout] and [canvas_bytes] stand
    for the layout-and-serialise half of [doc.build] and [canvas.save]: they
    return the bytes of the PDF or raise. *)
Class ReportLab := {
  getSampleStyleSheet : string -> Style;
  layout : DocTemplate -> list Flowable -> exn + list Byte.byte;
  canvas_bytes : Canvas -> exn + list Byte.byte;
  simpleSplit : string -> string -> Q -> Q -> list string
}.

(** ** Process environment and generator state *)

Record World := mkWorld {
  files : gmap string (list Byte.byte);
  unwritable : gset string;
  cwd : string;
  stdout : list string;
  stderr : list string
}.

(** A call of the render-and-write step: [doc.build(flowables)] or
    [canvas.save()]. *)
Inductive RenderCall :=
| call_build (doc : DocTemplate) (flowables : list Flowable)
| call_save (c : Canvas).

(** Calls observed at the ReportLab boundary, in the order they happen. *)
Inductive Event :=
| EvStyle (s : Style)
| EvAppend (b : Flowable)
| EvRender (call : RenderCall).

(** [story] is the list object the running generator appends to (bound to
    the local [story] in the complaint and [content] in the cover sheet). *)
Record State := mkState {
  world : World;
  story : list Flowable;
  trace : list Event
}.

Definition initial (w : World) : State := mkState w [] [].

Definition log (e : Event) (st : State) : State :=
  mkState (world st) (story st) (trace st ++ [e]).

Definition set_story (l : list Flowable) (st : State) : State :=
  mkState (world st) l (trace st).

Definition set_world (w : World) (st : State) : State :=
  mkState w (story st) (trace st).

Definition put_file (path : string) (data : list Byte.byte) (w : World) : World :=
  mkWorld (<[path := data]> (files w)) (unwritable w) (cwd w) (stdout w) (stderr w).

Definition put_stdout (line : string) (w : World) : World :=
  mkWorld (files w) (unwritable w) (cwd w) (stdout w ++ [line]) (stderr w).

Definition put_stderr (line : string) (w : World) : World :=
  mkWorld (files w) (unwritable w) (cwd w) (stdout w) (stderr w ++ [line]).

(** ** The monad *)

Inductive Outcome (A : Type) :=
| Ok (a : A) (st : State)
| Raise (e : exn) (st : State).
Arguments Ok {A} a st.
Arguments Raise {A} e st.

Definition M (A : Type) : Type := State -> Outcome A.

Definition ret {A} (a : A) : M A := fun st => Ok a st.

Definition bind {A B} (m : M A) (k : A -> M B) : M B :=
  fun st => match m st with
            | Ok a st' => k a st'
            | Raise e st' => Raise e st'
            end.

Declare Scope script_scope.
Delimit Scope script_scope with script.
Notation "x <- m ;; k" := (bind m (fun x => k))
  (at level 100, m at next level, right associativity) : script_scope.
Notation "m ;; k" := (bind m (fun _ => k))
  (at level 100, right associativity) : script_scope.
Open Scope script_scope.

Definition final_state {A} (o : Outcome A) : State :=
  match o with Ok _ st => st | Raise _ st => st end.

(** [for x in xs: body] *)
Fixpoint for_ {A} (xs : list A) (body : A -> M unit) : M unit :=
  match xs with
  | [] => ret tt
  | x :: rest => body x ;; for_ rest body
  end.

Section Operations.
Context {rl : ReportLab}.

(** [ParagraphStyle(name, parent=..., **kw)] *)
Definition ParagraphStyle (name_ : string) (parent_ : Style) (kw : list StyleKw) : M Style :=
  fun st => let s := new_style name_ parent_ kw in Ok s (log (EvStyle s) st).

(** [story = []] *)
Definition new_list : M unit := fun st => Ok tt (set_story [] st).

(** [story.append(b)] *)
Definition append (b : Flowable) : M unit :=
  fun st => Ok tt (log (EvAppend b) (set_story (story st ++ [b]) st)).

(** [print(line)] *)
Definition print (line : string) : M unit :=
  fun st => Ok tt (set_world (put_stdout line (world st)) st).

(** The file a render call writes. *)
Definition call_target (call : RenderCall) : string :=
  match call with
  | call_build doc _ => filename doc
  | call_save c => c_filename c
  end.

(** The render-and-write step: the library lays the document out and
    serialises it, then the target is opened for writing and the bytes are
    written, replacing an existing file.  Either half may raise. *)
Definition render_write (call : RenderCall) (w : World) : exn + World :=
  let rendered :=
    match call with
    | call_build doc flowables => layout doc flowables
    | call_save c => canvas_bytes c
    end in
  match rendered with
  | inl e => inl e
  | inr data =>
    if decide (call_target call ∈ unwritable w)
    then inl (mkExn "PermissionError" (call_target call))
    else inr (put_file (call_target call) data w)
  end.

Definition render (call : RenderCall) : M unit :=
  fun st =>
    let st1 := log (EvRender call) st in
    match render_write call (world st) with
    | inl e => Raise e st1
    | inr w' => Ok tt (set_world w' st1)
    end.

(** [doc.build(story)] *)
Definition build (doc : DocTemplate) : M unit :=
  fun st => render (call_build doc (story st)) st.

(** [pdf.save()] *)
Definition save (c : Canvas) : M unit := render (call_save c).

(** [os.path.abspath(path)]: [normpath(join(os.getcwd(), path))].  The
    working directory is normalised already and the scripts pass a bare file
    name, on which [normpath] changes nothing. *)
Definition join (a b : string) : string :=
  if String.prefix "/" b then b
  else if String.eqb a EmptyString then b
  else if String.eqb (String.substring (String.length a - 1) 1 a) "/" then a +:+ b
  else a +:+ "/" +:+ b.

Definition abspath (path : string) : M string :=
  fun st => Ok (join (cwd (world st)) path) st.

End Operations.

(** ** The Python process *)

(** Running a script: the module's [__main__] block is run in a fresh state;
    an exception nobody caught is reported on standard error and the
    process exits with status 1, otherwise with status 0. *)
Definition traceback (e : exn) : string := exn_type e +:+ ": " +:+ exn_msg e.

Definition run_script (main : list string -> M unit) (argv : list string) (w : World)
  : Z * World :=
  match main argv (initial w) with
  | Ok _ st => (0%Z, world st)
  | Raise e st => (1%Z, put_stderr (traceback e) (world st))
  end.

(** ** gen_complaint.py *)

Module Complaint.
Section WithReportLab.
Context {rl : ReportLab}.

(** Generate a PDF for the civil action complaint text using ReportLab. *)
Definition generate_civil_action_pdf (output_filename : string) : M unit :=
  (* Create document *)
  let doc :=
    {| filename := output_filename;
       pagesize := letter;
       leftMargin := (1 * inch)%Q;
       rightMargin := (1 * inch)%Q;
       topMargin := (0.75 * inch)%Q;
       bottomMargin := (0.75 * inch)%Q;
       title := Some "Civil Action Complaint";
       author := Some "Bo Shang";
       subject := Some "Complaint for Damages, Injunctive Relief, and Other Relief" |} in
  (* Styles *)
  let styles := getSampleStyleSheet in
  (* Customize some styles *)
  style_title <- ParagraphStyle "TitleStyle" (styles "Title")
      [kw_fontSize 16; kw_leading 20; kw_alignment TA_CENTER; kw_spaceAfter 12] ;;
  style_subtitle <- ParagraphStyle "SubtitleStyle" (styles "Title")
      [kw_fontSize 14; kw_leading 18; kw_alignment TA_CENTER; kw_spaceAfter 6] ;;
  style_heading <- ParagraphStyle "HeadingStyle" (styles "Heading1")
      [kw_fontSize 12; kw_leading 14; kw_spaceAfter 6; kw_spaceBefore 12] ;;
  style_paragraph <- ParagraphStyle "ParagraphStyle" (styles "Normal")
      [kw_fontSize 10.5; kw_leading 14; kw_alignment TA_JUSTIFY; kw_spaceAfter 6] ;;
  style_paragraph_indent <- ParagraphStyle "ParagraphIndentStyle" style_paragraph
      [kw_leftIndent 20] ;;
  style_bulleted_list <- ParagraphStyle "BulletedListStyle" style_paragraph
      [kw_bulletIndent 20; kw_leftIndent 40; kw_bulletFontName "Helvetica"; kw_bulletFontSize 10.5; kw_leading 14] ;;
  style_paragraph_centered <- ParagraphStyle "CenteredParagraphStyle" style_paragraph
      [kw_alignment TA_CENTER] ;;
  (* Flowables container *)
  new_list ;;
  (* Cover / Title *)
  append (Paragraph "SUPERIOR COURT OF WASHINGTON<br/>FOR KING COUNTY" style_title) ;;
  append (Spacer 1 4) ;;
  append (Paragraph
       ("BO SHANG, an individual,<br/>Plaintiff,<br/><br/>v.<br/><br/>"
        +:+ "AMAZON.COM, INC., a Delaware corporation,<br/>Defendant.<br/><br/>"
        +:+ "Case No. __________")
       style_paragraph_centered) ;;
  append (Spacer 1 12) ;;
  append (Paragraph "COMPLAINT FOR DAMAGES, INJUNCTIVE RELIEF, AND OTHER RELIEF" style_subtitle) ;;
  append (Spacer 1 24) ;;
  (* I. INTRODUCTION *)
  append (Paragraph "I. INTRODUCTION" style_heading) ;;
  let intro_text_1 :=
      ("1. Plaintiff, Bo Shang (“Plaintiff”), brings this action against Amazon.com, Inc. "
       +:+ "(“Amazon” or “Defendant”), alleging that Defendant sold or facilitated the sale of "
       +:+ "a stolen Google Pixel 7A smartphone through its Prime shipping program. "
       +:+ "Plaintiff contends that after discovering the phone was stolen, Amazon:") in
  append (Paragraph intro_text_1 style_paragraph) ;;
  (* Nested bullet points *)
  let bullet_points_intro_1 :=
      ["Required Plaintiff to drop off the return in person at an Amazon-approved location; and";
       ("Imposed a 20% restocking fee due to a purported 90-day return limit — even though the device’s "
        +:+ "stolen status was unknown to Plaintiff until after that period.")] in
  for_ bullet_points_intro_1 (fun bp =>
    append (Paragraph ("• " +:+ bp) style_bulleted_list)) ;;
  let intro_text_2 :=
      ("2. Plaintiff seeks compensatory damages, equitable relief, attorneys’ fees "
       +:+ "(if permitted by law), and any other relief deemed just and proper.") in
  append (Paragraph intro_text_2 style_paragraph) ;;
  (* II. JURISDICTION AND VENUE *)
  append (Paragraph "II. JURISDICTION AND VENUE" style_heading) ;;
  let jurisdiction_text_3 :=
      ("3. Subject Matter Jurisdiction: This Court has jurisdiction over the claims asserted herein "
       +:+ "under RCW 2.08.010, which grants the Superior Court original jurisdiction in all civil actions "
       +:+ "where the value of the claim exceeds the jurisdictional limits of inferior courts.") in
  append (Paragraph jurisdiction_text_3 style_paragraph) ;;
  let jurisdiction_text_4 :=
      ("4. Personal Jurisdiction: Defendant Amazon.com, Inc. is headquartered in Seattle, Washington, "
       +:+ "transacts substantial business in King County, and has purposely availed itself of the benefits "
       +:+ "and protections of Washington laws. Therefore, personal jurisdiction is proper under RCW 4.28.185 "
       +:+ "and general principles of due process.") in
  append (Paragraph jurisdiction_text_4 style_paragraph) ;;
  let jurisdiction_text_5 :=
      ("5. Venue: Venue is proper in King County under RCW 4.12.025(1) because Defendant’s principal place "
       +:+ "of business is in King County, and a substantial part of the events or omissions giving rise to "
       +:+ "Plaintiff’s claims occurred in King County.") in
  append (Paragraph jurisdiction_text_5 style_paragraph) ;;
  (* III. PARTIES *)
  append (Paragraph "III. PARTIES" style_heading) ;;
  let parties_text_6 :=
      ("6. Plaintiff, Bo Shang (“Plaintiff”), is an individual residing in [County/State], who purchased "
       +:+ "a Pixel 7A smartphone from Amazon’s platform under the Amazon Prime shipping program.") in
  append (Paragraph parties_text_6 style_paragraph) ;;
  let parties_text_7 :=
      ("7. Defendant, Amazon.com, Inc. (“Amazon” or “Defendant”), is a Delaware corporation with its "
       +:+ "principal place of business located at 410 Terry Avenue North, Seattle, Washington 98109.") in
  append (Paragraph parties_text_7 style_paragraph) ;;
  (* IV. FACTUAL BACKGROUND *)
  append (Paragraph "IV. FACTUAL BACKGROUND" style_heading) ;;
  let factual_text_8_intro := "8. Purchase and Discovery of Stolen Status:" in
  append (Paragraph factual_text_8_intro style_paragraph) ;;
  let bullet_points_8 :=
      [("On or about [date of purchase], Plaintiff purchased a Google Pixel 7A smartphone from Amazon. "
        +:+ "The product was labeled “Prime,” suggesting either it was sold by Amazon or fulfilled by "
        +:+ "Amazon on behalf of a third-party seller.");
       ("Plaintiff received and used the phone but subsequently discovered, through [documentation from "
        +:+ "manufacturer/mobile carrier/police report/other source], that the device had been reported "
        +:+ "stolen before Plaintiff’s purchase.")] in
  for_ bullet_points_8 (fun bp =>
    append (Paragraph ("• " +:+ bp) style_bulleted_list)) ;;
  let factual_text_9_intro := "9. Notification to Amazon:" in
  append (Paragraph factual_text_9_intro style_paragraph) ;;
  let bullet_points_9 :=
      ["Plaintiff promptly informed Amazon Customer Service of the phone’s stolen status and requested a refund.";
       ("Amazon instructed Plaintiff to drop off the device at an approved Amazon or carrier location. "
        +:+ "Plaintiff was forced to personally handle and transport the stolen item at his own expense "
        +:+ "and inconvenience.")] in
  for_ bullet_points_9 (fun bp =>
    append (Paragraph ("• " +:+ bp) style_bulleted_list)) ;;
  let factual_text_10_intro := "10. Restocking Fee Imposed:" in
  append (Paragraph factual_text_10_intro style_paragraph) ;;
  let bullet_points_10 :=
      [("Amazon refused to process the return without a 20% restocking fee, asserting that the phone was "
        +:+ "outside the 90-day return window.");
       ("Plaintiff contends that the stolen status was not discoverable through normal use until after "
        +:+ "this arbitrary deadline; moreover, it is unconscionable to charge any restocking fee for "
        +:+ "returning a stolen product that never should have been sold in the first place.")] in
  for_ bullet_points_10 (fun bp =>
    append (Paragraph ("• " +:+ bp) style_bulleted_list)) ;;
  let factual_text_11_intro := "11. Harm to Plaintiff:" in
  append (Paragraph factual_text_11_intro style_paragraph) ;;
  let bullet_points_11 :=
      [("Plaintiff relied on Amazon’s representations of safety, security, and product legitimacy, "
        +:+ "especially for “Prime” products.");
       ("Plaintiff incurred financial, legal, and practical harm, including the inconvenience and "
        +:+ "potential liability of possessing stolen goods, time and travel costs for dropping off "
        +:+ "the return, and the 20% restocking fee demanded by Amazon.")] in
  for_ bullet_points_11 (fun bp =>
    append (Paragraph ("• " +:+ bp) style_bulleted_list)) ;;
  let factual_text_12_intro := "12. Amazon’s Role and Representations:" in
  append (Paragraph factual_text_12_intro style_paragraph) ;;
  let bullet_points_12 :=
      [("By labeling the Pixel 7A purchase with “Prime,” Amazon effectively represented to Plaintiff "
        +:+ "that the item was vetted or at least subject to certain quality and authenticity controls.");
       ("Plaintiff contends Amazon either owned the device before sale (as part of its Fulfillment by "
        +:+ "Amazon stock) or acted as a primary facilitator, thus materially controlling the transaction.");
       ("In numerous marketing statements, Amazon promotes its marketplace as safe and reliable, "
        +:+ "guaranteeing customers they can “buy with confidence” under programs such as “A-to-Z Guarantee.” "
        +:+ "However, these assurances proved hollow in Plaintiff’s case.")] in
  for_ bullet_points_12 (fun bp =>
    append (Paragraph ("• " +:+ bp) style_bulleted_list)) ;;
  (* V. CAUSES OF ACTION *)
  append (Paragraph "V. CAUSES OF ACTION" style_heading) ;;
  let causes_of_action_intro :=
      ("Plaintiff realleges and incorporates by reference each of the preceding paragraphs as though "
       +:+ "fully set forth herein.") in
  append (Paragraph causes_of_action_intro style_paragraph) ;;
  (* COUNT I – VIOLATION OF THE WASHINGTON CONSUMER PROTECTION ACT (RCW 19.86) *)
  append (Paragraph "COUNT I – VIOLATION OF THE WASHINGTON CONSUMER PROTECTION ACT (RCW 19.86)" style_heading) ;;
  let count1_text_13 :=
      ("13. The Washington Consumer Protection Act (“WCPA”), codified at RCW 19.86, "
       +:+ "prohibits unfair or deceptive acts or practices in the conduct of trade or commerce.") in
  append (Paragraph count1_text_13 style_paragraph) ;;
  let count1_text_14 :=
      ("14. Defendant, by enabling the sale of stolen goods under the Amazon Prime program and by "
       +:+ "imposing an unconscionable restocking fee when the item was finally discovered to be stolen, "
       +:+ "committed one or more unfair or deceptive acts or practices likely to mislead a reasonable "
       +:+ "consumer.") in
  append (Paragraph count1_text_14 style_paragraph) ;;
  let count1_text_15 :=
      ("15. Case Law Support:<br/>"
       +:+ "• <i>Hangman Ridge Training Stables, Inc. v. Safeco Title Ins. Co.</i>, 105 Wn.2d 778, "
       +:+ "784–85 (1986) (stating the elements for a private action under the WCPA, including unfair "
       +:+ "or deceptive acts, occurring in trade or commerce, that affect the public interest, and "
       +:+ "cause injury).<br/>"
       +:+ "• <i>Klem v. Washington Mut. Bank</i>, 176 Wn.2d 771, 787 (2013) (affirming that an act "
       +:+ "need only have the capacity to deceive a substantial portion of the public to violate the CPA).") in
  append (Paragraph count1_text_15 style_paragraph) ;;
  let count1_text_16 :=
      ("16. Amazon’s acts and omissions proximately caused injury to Plaintiff’s business or property, "
       +:+ "including monetary loss and other damages, thus violating RCW 19.86.020.") in
  append (Paragraph count1_text_16 style_paragraph) ;;
  let count1_text_17 :=
      ("17. Pursuant to RCW 19.86.090, Plaintiff seeks actual damages, treble damages up to statutory "
       +:+ "limits, and reasonable attorneys’ fees and costs.") in
  append (Paragraph count1_text_17 style_paragraph) ;;
  (* COUNT II – BREACH OF IMPLIED WARRANTY OF MERCHANTABILITY (RCW 62A.2-314) *)
  append (Paragraph "COUNT II – BREACH OF IMPLIED WARRANTY OF MERCHANTABILITY (RCW 62A.2-314)" style_heading) ;;
  let count2_text_18 :=
      ("18. Under RCW 62A.2-314, every contract for the sale of goods includes an implied warranty "
       +:+ "of merchantability, which ensures the product is fit for the ordinary purposes for which goods "
       +:+ "of that kind are used, and that the product is lawfully sold (not stolen).") in
  append (Paragraph count2_text_18 style_paragraph) ;;
  let count2_text_19 :=
      ("19. By advertising and fulfilling the sale of a stolen Google Pixel 7A, Defendant breached "
       +:+ "the implied warranty of merchantability, as stolen merchandise cannot be lawfully resold "
       +:+ "and is inherently unfit for normal ownership and use.") in
  append (Paragraph count2_text_19 style_paragraph) ;;
  let count2_text_20 :=
      ("20. Case Law Support:<br/>"
       +:+ "• <i>Baughn v. Honda Motor Co., Ltd.</i>, 107 Wn.2d 127, 151 (1986) (discussing implied warranties "
       +:+ "in the context of consumer goods).<br/>"
       +:+ "• <i>Touchet Valley Grain Growers, Inc. v. Opp &amp; Seibold Gen. Constr., Inc.</i>, 119 Wn.2d "
       +:+ "334, 341 (1992) (outlining the scope of implied warranties under Washington’s Uniform Commercial Code).") in
  append (Paragraph count2_text_20 style_paragraph) ;;
  let count2_text_21 :=
      ("21. As a direct and proximate result of Defendant’s breach, Plaintiff suffered damages in "
       +:+ "an amount to be proven at trial.") in
  append (Paragraph count2_text_21 style_paragraph) ;;
  (* COUNT III – NEGLIGENCE / NEGLIGENT MISREPRESENTATION *)
  append (Paragraph "COUNT III – NEGLIGENCE / NEGLIGENT MISREPRESENTATION" style_heading) ;;
  let count3_text_22 :=
      ("22. Defendant owed a duty of care to Plaintiff as a consumer who relied on Defendant’s "
       +:+ "platform and “Prime” services. Given Amazon’s representations of safety and security, "
       +:+ "it had a duty to prevent the sale of stolen goods or at least conduct reasonable checks.") in
  append (Paragraph count3_text_22 style_paragraph) ;;
  let count3_text_23 :=
      ("23. Defendant breached this duty by failing to implement adequate inventory control, "
       +:+ "screening, or verification processes to ensure that items sold or fulfilled via Amazon "
       +:+ "Prime were not stolen property.") in
  append (Paragraph count3_text_23 style_paragraph) ;;
  let count3_text_24 :=
      ("24. Case Law Support:<br/>"
       +:+ "• <i>Mbewe v. Amazon.com, Inc.</i>, No. 2:18-cv-00848-RAJ, 2019 WL 2994693 (W.D. Wash. July 9, 2019) "
       +:+ "(while not a final published opinion on negligence, referencing Amazon’s potential duty of care "
       +:+ "when fulfilling goods through its marketplace).<br/>"
       +:+ "• <i>Erie Ins. Co. v. Amazon.com, Inc.</i>, 925 F.3d 135 (4th Cir. 2019) (persuasive authority from "
       +:+ "another Circuit analyzing Amazon’s responsibilities as a seller or facilitator).") in
  append (Paragraph count3_text_24 style_paragraph) ;;
  let count3_text_25 :=
      ("25. Plaintiff relied on Amazon’s statements and “Prime” labeling, believing the product was "
       +:+ "legitimate and non-stolen. Plaintiff would not have purchased the phone had he known it was stolen.") in
  append (Paragraph count3_text_25 style_paragraph) ;;
  let count3_text_26 :=
      ("26. This reliance was justifiable given Amazon’s longstanding marketing as a trusted "
       +:+ "e-commerce platform. Defendant’s negligent conduct directly and proximately caused harm "
       +:+ "to Plaintiff, including but not limited to the cost of the phone, the time and expense of "
       +:+ "the forced return, and the imposed restocking fee.") in
  append (Paragraph count3_text_26 style_paragraph) ;;
  (* VI. DAMAGES AND RELIEF SOUGHT *)
  append (Paragraph "VI. DAMAGES AND RELIEF SOUGHT" style_heading) ;;
  let damages_text := "WHEREFORE, Plaintiff respectfully requests judgment in his favor as follows:" in
  append (Paragraph damages_text style_paragraph) ;;
  let bullet_points_damages :=
      [("1. Compensatory Damages: For all losses, including but not limited to the purchase price "
        +:+ "of the Pixel 7A, related fees, costs incurred to return the stolen device, and any other "
        +:+ "economic losses.");
       ("2. Treble Damages: As allowed under RCW 19.86.090 for violations of the Washington "
        +:+ "Consumer Protection Act, up to the statutory maximum.");
       ("3. Injunctive Relief: <br/>"
        +:+ "• Enjoining Defendant from imposing restocking fees on products that turn out to be stolen.<br/>"
        +:+ "• Requiring Defendant to improve inventory and fulfillment procedures to prevent future sales "
        +:+ "of stolen property.");
       ("4. Attorneys’ Fees and Costs: Pursuant to RCW 19.86.090 (for CPA violations) and any other "
        +:+ "applicable provision of law.");
       "5. Pre- and Post-Judgment Interest: As permitted by law.";
       "6. Such Other and Further Relief as the Court deems just, equitable, and proper."] in
  for_ bullet_points_damages (fun bp =>
    append (Paragraph ("• " +:+ bp) style_bulleted_list)) ;;
  (* VII. JURY DEMAND *)
  append (Paragraph "VII. JURY DEMAND" style_heading) ;;
  let jury_text :=
      ("Pursuant to CR 38 of the Washington Superior Court Civil Rules, Plaintiff demands "
       +:+ "trial by jury on all issues so triable.") in
  append (Paragraph jury_text style_paragraph) ;;
  (* PRAYER FOR RELIEF *)
  append (Paragraph "PRAYER FOR RELIEF" style_heading) ;;
  let prayer_text :=
      ("WHEREFORE, Plaintiff, Bo Shang, prays for judgment against Defendant, Amazon.com, Inc., "
       +:+ "in an amount to be proven at trial, including but not limited to compensatory and statutory "
       +:+ "damages, along with equitable relief, interest, costs, and attorneys’ fees (if allowed by "
       +:+ "law), and for such other relief as this Court deems just and proper.") in
  append (Paragraph prayer_text style_paragraph) ;;
  (* Dated/Signature *)
  let signature_block :=
      ("DATED this 4 day of Feb, 2025.<br/><br/>"
       +:+ "Respectfully submitted,<br/><br/>"
       +:+ "__________________________<br/>"
       +:+ "Bo Shang (Pro Se)<br/>"
       +:+ "10 McCafferty Way<br/>"
       +:+ "781-999-4101<br/>"
       +:+ "bo@shang.software<br/>"
       +:+ "Pro Se") in
  append (Spacer 1 12) ;;
  append (Paragraph signature_block style_paragraph) ;;
  (* Page Break *)
  append PageBreak ;;
  (* Exhibits Section (placeholders for images or content) *)
  append (Paragraph "EXHIBIT 1:" style_heading) ;;
  append (Spacer 1 12) ;;
  append (Paragraph
       ("Placeholder for Exhibit 1 content (e.g., documentation from manufacturer, mobile carrier, "
        +:+ "police report, or other source).")
       style_paragraph) ;;
  append PageBreak ;;
  append (Paragraph "EXHIBIT 2:" style_heading) ;;
  append (Spacer 1 12) ;;
  append (Paragraph "Placeholder for Exhibit 2 content." style_paragraph) ;;
  append PageBreak ;;
  append (Paragraph "EXHIBIT 3:" style_heading) ;;
  append (Spacer 1 12) ;;
  append (Paragraph "Placeholder for Exhibit 3 content." style_paragraph) ;;
  append PageBreak ;;
  append (Paragraph "EXHIBIT 4:" style_heading) ;;
  append (Spacer 1 12) ;;
  append (Paragraph "Placeholder for Exhibit 4 content." style_paragraph) ;;
  (* Build the PDF *)
  build doc ;;
  print ("PDF generated successfully: " +:+ output_filename)
.

(** Main entry point for the script; [argv] is [sys.argv]. *)
Definition main (argv : list string) : M unit :=
  let output_file := "CivilActionComplaint.pdf" in
  let output_file :=
    if (1 <? length argv)%nat then nth 1 argv output_file else output_file in
  generate_civil_action_pdf output_file.

(** [if __name__ == '__main__': main()] *)
Definition script_main (argv : list string) : M unit := main argv.

(** The seven lists [generate_civil_action_pdf] loops over, under the names
    and in the order they have there. *)

(** [bullet_points_intro_1], lines 142-146 *)
Definition bullet_points_intro_1 : list string :=
  ["Required Plaintiff to drop off the return in person at an Amazon-approved location; and";
   ("Imposed a 20% restocking fee due to a purported 90-day return limit — even though the device’s "
    +:+ "stolen status was unknown to Plaintiff until after that period.")].

(** [bullet_points_8], lines 199-206 *)
Definition bullet_points_8 : list string :=
  [("On or about [date of purchase], Plaintiff purchased a Google Pixel 7A smartphone from Amazon. "
    +:+ "The product was labeled “Prime,” suggesting either it was sold by Amazon or fulfilled by "
    +:+ "Amazon on behalf of a third-party seller.");
   ("Plaintiff received and used the phone but subsequently discovered, through [documentation from "
    +:+ "manufacturer/mobile carrier/police report/other source], that the device had been reported "
    +:+ "stolen before Plaintiff’s purchase.")].

(** [bullet_points_9], lines 213-218 *)
Definition bullet_points_9 : list string :=
  ["Plaintiff promptly informed Amazon Customer Service of the phone’s stolen status and requested a refund.";
   ("Amazon instructed Plaintiff to drop off the device at an approved Amazon or carrier location. "
    +:+ "Plaintiff was forced to personally handle and transport the stolen item at his own expense "
    +:+ "and inconvenience.")].

(** [bullet_points_10], lines 225-231 *)
Definition bullet_points_10 : list string :=
  [("Amazon refused to process the return without a 20% restocking fee, asserting that the phone was "
    +:+ "outside the 90-day return window.");
   ("Plaintiff contends that the stolen status was not discoverable through normal use until after "
    +:+ "this arbitrary deadline; moreover, it is unconscionable to charge any restocking fee for "
    +:+ "returning a stolen product that never should have been sold in the first place.")].

(** [bullet_points_11], lines 238-244 *)
Definition bullet_points_11 : list string :=
  [("Plaintiff relied on Amazon’s representations of safety, security, and product legitimacy, "
    +:+ "especially for “Prime” products.");
   ("Plaintiff incurred financial, legal, and practical harm, including the inconvenience and "
    +:+ "potential liability of possessing stolen goods, time and travel costs for dropping off "
    +:+ "the return, and the 20% restocking fee demanded by Amazon.")].

(** [bullet_points_12], lines 251-259 *)
Definition bullet_points_12 : list string :=
  [("By labeling the Pixel 7A purchase with “Prime,” Amazon effectively represented to Plaintiff "
    +:+ "that the item was vetted or at least subject to certain quality and authenticity controls.");
   ("Plaintiff contends Amazon either owned the device before sale (as part of its Fulfillment by "
    +:+ "Amazon stock) or acted as a primary facilitator, thus materially controlling the transaction.");
   ("In numerous marketing statements, Amazon promotes its marketplace as safe and reliable, "
    +:+ "guaranteeing customers they can “buy with confidence” under programs such as “A-to-Z Guarantee.” "
    +:+ "However, these assurances proved hollow in Plaintiff’s case.")].

(** [bullet_points_damages], lines 403-417 *)
Definition bullet_points_damages : list string :=
  [("1. Compensatory Damages: For all losses, including but not limited to the purchase price "
    +:+ "of the Pixel 7A, related fees, costs incurred to return the stolen device, and any other "
    +:+ "economic losses.");
   ("2. Treble Damages: As allowed under RCW 19.86.090 for violations of the Washington "
    +:+ "Consumer Protection Act, up to the statutory maximum.");
   ("3. Injunctive Relief: <br/>"
    +:+ "• Enjoining Defendant from imposing restocking fees on products that turn out to be stolen.<br/>"
    +:+ "• Requiring Defendant to improve inventory and fulfillment procedures to prevent future sales "
    +:+ "of stolen property.");
   ("4. Attorneys’ Fees and Costs: Pursuant to RCW 19.86.090 (for CPA violations) and any other "
    +:+ "applicable provision of law.");
   "5. Pre- and Post-Judgment Interest: As permitted by law.";
   "6. Such Other and Further Relief as the Court deems just, equitable, and proper."].

End WithReportLab.
End Complaint.

(** ** gen_cover.py *)

Module Cover.
Section WithReportLab.
Context {rl : ReportLab}.

(** [create_civil_cover_sheet(output_filename='CivilActionCoverSheet.pdf')];
    its one call passes the file name explicitly. *)
Definition create_civil_cover_sheet (output_filename : string) : M unit :=
  (* Sample style sheet *)
  let styles := getSampleStyleSheet in
  let style_normal := (styles "Normal") in
  let style_heading := (styles "Heading1") in
  let style_subheading := (styles "Heading2") in
  (* Custom styles *)
  style_title <- ParagraphStyle "CoverSheetTitle" style_heading
      [kw_fontSize 14; kw_leading 18; kw_alignment 1; kw_spaceAfter 10] ;;
  style_section <- ParagraphStyle "CoverSheetSection" style_subheading
      [kw_fontSize 12; kw_leading 14; kw_spaceBefore 12; kw_spaceAfter 4] ;;
  style_label <- ParagraphStyle "LabelStyle" style_normal
      [kw_fontSize 10; kw_leading 12; kw_textColor black; kw_spaceAfter 2] ;;
  style_field <- ParagraphStyle "FieldStyle" style_normal
      [kw_fontSize 10; kw_leading 12; kw_textColor black; kw_spaceAfter 5] ;;
  (* Create the PDF document *)
  let doc :=
    {| filename := output_filename;
       pagesize := LETTER;
       leftMargin := 72;
       rightMargin := 72;
       topMargin := 72;
       bottomMargin := 72;
       title := None;
       author := None;
       subject := None |} in
  new_list ;;
  (* Title *)
  append (Paragraph ("Superior Court of Washington" +:+ LF +:+ "For King County") style_title) ;;
  (* Subtitle *)
  append (Paragraph "Civil Case Cover Sheet" style_section) ;;
  append (Spacer 1 (0.2 * inch)%Q) ;;
  (* Basic Case Information Table *)
  (* Replace 'TBD' or blank if you do not yet have a case number assigned *)
  let case_info_data :=
      [[(Paragraph "<b>Case Number:</b>" style_label);
        (Paragraph "___________ (Assigned by Clerk)" style_field)];
       [(Paragraph "<b>Case Title:</b>" style_label);
        (Paragraph "Bo Shang v. Amazon.com, Inc." style_field)];
       [(Paragraph "<b>Date of Filing:</b>" style_label);
        (Paragraph "February 4, 2025" style_field)];
       [(Paragraph "<b>Judge Assigned (if known):</b>" style_label);
        (Paragraph EmptyString style_field)]] in
  let case_info_table := (Table case_info_data "LEFT" [(2 * inch)%Q; (4 * inch)%Q] []) in
  let case_info_table := setStyle case_info_table
    (TableStyle
       [VALIGN (0, 0)%Z (-1, -1)%Z "TOP";
        LINEBELOW (0, 0)%Z (-1, -1)%Z 0.25 black;
        BOTTOMPADDING (0, 0)%Z (-1, -1)%Z 6]) in
  append case_info_table ;;
  append (Spacer 1 (0.3 * inch)%Q) ;;
  (* Plaintiff Information *)
  let plaintiff_data :=
      [[(Paragraph "<b>Plaintiff Name(s):</b>" style_label);
        (Paragraph "1)  Bo Shang" style_field)];
       [(Paragraph "<b>Plaintiff Contact Info:</b>" style_label);
        (Paragraph
           ("10 McCafferty Way<br/>"
            +:+ "Phone: 781-999-4101<br/>"
            +:+ "Email: bo@shang.software")
           style_field)]] in
  let plaintiff_table := (Table plaintiff_data "LEFT" [(2 * inch)%Q; (4 * inch)%Q] []) in
  let plaintiff_table := setStyle plaintiff_table
    (TableStyle
       [VALIGN (0, 0)%Z (-1, -1)%Z "TOP";
        LINEBELOW (0, 0)%Z (-1, -1)%Z 0.25 black;
        BOTTOMPADDING (0, 0)%Z (-1, -1)%Z 6]) in
  append (Paragraph "Plaintiff Information" style_section) ;;
  append plaintiff_table ;;
  append (Spacer 1 (0.3 * inch)%Q) ;;
  (* Defendant Information *)
  let defendant_data :=
      [[(Paragraph "<b>Defendant Name(s):</b>" style_label);
        (Paragraph "1)  Amazon.com, Inc." style_field)];
       [(Paragraph "<b>Defendant Principal Address:</b>" style_label);
        (Paragraph
           ("410 Terry Avenue North<br/>"
            +:+ "Seattle, WA 98109")
           style_field)]] in
  let defendant_table := (Table defendant_data "LEFT" [(2 * inch)%Q; (4 * inch)%Q] []) in
  let defendant_table := setStyle defendant_table
    (TableStyle
       [VALIGN (0, 0)%Z (-1, -1)%Z "TOP";
        LINEBELOW (0, 0)%Z (-1, -1)%Z 0.25 black;
        BOTTOMPADDING (0, 0)%Z (-1, -1)%Z 6]) in
  append (Paragraph "Defendant Information" style_section) ;;
  append defendant_table ;;
  append (Spacer 1 (0.3 * inch)%Q) ;;
  (* Nature of the Case & Relief *)
  (* Typically, local rules or forms may require you to check boxes or specify categories. *)
  (* For demonstration, we use descriptive text referencing your complaint’s causes of action. *)
  append (Paragraph "Nature of the Suit / Cause of Action" style_section) ;;
  let causes_text :=
      (LF +:+ "    1. Violation of the Washington Consumer Protection Act (RCW 19.86)" +:+ LF
       +:+ "    2. Breach of Implied Warranty of Merchantability (RCW 62A.2-314)" +:+ LF
       +:+ "    3. Negligence / Negligent Misrepresentation" +:+ LF
       +:+ "    4. Damages, injunctive relief, attorneys’ fees (if allowed), and other relief" +:+ LF
       +:+ "    ") in
  append (Paragraph (strip causes_text) style_normal) ;;
  append (Spacer 1 (0.3 * inch)%Q) ;;
  (* Case Type & Assignment *)
  let case_type_data :=
      [[(Paragraph "<b>Case Type:</b>" style_label);
        (Paragraph "Civil - Consumer Protection / Contract / Negligence" style_field)];
       [(Paragraph "<b>Relief Sought:</b>" style_label);
        (Paragraph
           ("Compensatory and statutory damages; injunctive relief; attorneys’ fees (if permitted); "
            +:+ "and other appropriate relief as detailed in the Complaint.")
           style_field)]] in
  let case_type_table := (Table case_type_data "LEFT" [(2 * inch)%Q; (4 * inch)%Q] []) in
  let case_type_table := setStyle case_type_table
    (TableStyle
       [VALIGN (0, 0)%Z (-1, -1)%Z "TOP";
        LINEBELOW (0, 0)%Z (-1, -1)%Z 0.25 black;
        BOTTOMPADDING (0, 0)%Z (-1, -1)%Z 6]) in
  append case_type_table ;;
  append (Spacer 1 (0.3 * inch)%Q) ;;
  (* Attorney or Pro Se Info *)
  (* Plaintiff is pro se here. *)
  let pro_se_data :=
      [[(Paragraph "<b>Filing Party:</b>" style_label);
        (Paragraph "Plaintiff, Pro Se" style_field)];
       [(Paragraph "<b>Attorney/Pro Se Name:</b>" style_label);
        (Paragraph "Pro Se: Bo Shang" style_field)];
       [(Paragraph "<b>Signature / Date:</b>" style_label);
        (Paragraph "______________________________  Dated: February 4, 2025" style_field)]] in
  let pro_se_table := (Table pro_se_data "LEFT" [(2 * inch)%Q; (4 * inch)%Q] []) in
  let pro_se_table := setStyle pro_se_table
    (TableStyle
       [VALIGN (0, 0)%Z (-1, -1)%Z "TOP";
        LINEBELOW (0, 0)%Z (-1, 0)%Z 0.25 black;
        BOTTOMPADDING (0, 0)%Z (-1, -1)%Z 6]) in
  append (Paragraph "Attorney / Pro Se Information" style_section) ;;
  append pro_se_table ;;
  (* Build the PDF *)
  build doc ;;
  print ("PDF generated successfully: " +:+ output_filename)
.

(** The [__main__] block: it does not read [sys.argv]. *)
Definition script_main (argv : list string) : M unit :=
  (* Run the function to create the civil cover sheet PDF *)
  create_civil_cover_sheet "CivilActionCoverSheet.pdf".

End WithReportLab.
End Cover.

(** ** gen_fee_waiver.py *)

Module FeeWaiver.
Section WithReportLab.
Context {rl : ReportLab}.

(** Helper function to draw multi-line text, nested in
    [generate_fee_waiver_request] and closing over its [line_spacing]: draws
    the wrapped lines from [(x, y)] downwards and returns the canvas with the
    next [y]. *)
Definition draw_multiline_text (line_spacing : Q) (c : Canvas) (text : string)
    (x y : Q) (max_width : Q) : Canvas * Q :=
  let lines := simpleSplit text "Times-Roman" 12 max_width in
  fold_left
    (fun (cy : Canvas * Q) (line : string) =>
       (drawString (fst cy) x (snd cy) line, (snd cy - line_spacing)%Q))
    lines (c, y).

(** Generates the Fee Waiver Request PDF and saves it to [output_path]. *)
Definition generate_fee_waiver_request (output_path : string) : M unit :=
  (* Create a canvas for the PDF *)
  let pdf := mkCanvas output_path LETTER [] in
  let width := fst LETTER in
  let height := snd LETTER in
  (* Set title *)
  let pdf := setTitle pdf "Fee Waiver Request - Bo Shang" in
  (* Define initial positions and styling *)
  let x_left := inch in
  let y_top := (height - inch)%Q in
  let line_spacing := 14%Q in
  let pdf := setFont pdf "Times-Roman" 12 in
  (* Heading *)
  let pdf := setFont pdf "Times-Bold" 14 in
  let pdf := drawString pdf x_left y_top "Fee Waiver Request" in
  let pdf := setFont pdf "Times-Roman" 12 in
  let y_top := (y_top - 2 * line_spacing)%Q in
  (* Court Information *)
  let text_court :=
      ("Superior Court of Washington" +:+ LF
       +:+ "County of King" +:+ LF
       +:+ "Case Number: FW25-000155 SEA" +:+ LF
       +:+ "Case Title: SHANG VS AMAZON INC" +:+ LF) in
  let drawn := draw_multiline_text line_spacing pdf text_court x_left y_top 500 in
  let pdf := fst drawn in
  let y_top := snd drawn in
  (* Section Break *)
  let y_top := (y_top - line_spacing)%Q in
  (* Applicant Statement *)
  let text_statement :=
      ("I, the undersigned, hereby request a waiver of fees for the above-referenced case. "
       +:+ "I am currently receiving MA Medicaid benefits and am unable to pay the court fees "
       +:+ "without substantial hardship to myself and/or my dependents." +:+ LF +:+ LF
       +:+ "I declare that the following information is true and complete to the best of my knowledge:" +:+ LF +:+ LF
       +:+ "1. Full Name of Applicant: Bo Shang" +:+ LF
       +:+ "2. Address: 10 McCafferty Way, Burlington MA 01803" +:+ LF
       +:+ "3. Phone Number: 781-999-4101" +:+ LF
       +:+ "4. Date of Birth: 06/06/1988" +:+ LF
       +:+ "5. Government Assistance Received: MA Medicaid (Active)" +:+ LF +:+ LF
       +:+ "I understand that by requesting this fee waiver, the Court may require additional documentation "
       +:+ "in support of my financial situation and my receipt of government benefits. "
       +:+ "I agree to provide such documentation if requested." +:+ LF +:+ LF
       +:+ "Under penalty of perjury under the laws of the State of Washington, I certify that "
       +:+ "the information provided in this request is true and correct.") in
  let drawn := draw_multiline_text line_spacing pdf text_statement x_left y_top 500 in
  let pdf := fst drawn in
  let y_top := snd drawn in
  (* Signature *)
  let y_top := (y_top - 2 * line_spacing)%Q in
  let pdf := drawString pdf x_left y_top
    "Signature (on behalf of Applicant): _______Bo Shang______   Date: ___2/13/2025__" in
  let y_top := (y_top - line_spacing)%Q in
  let pdf := drawString pdf x_left y_top "Signed By: /s/ Bo Shang" in
  (* Finalize and save PDF *)
  let pdf := showPage pdf in
  save pdf.

(** Main function; it fixes the output file and does not read [sys.argv]. *)
Definition main (argv : list string) : M unit :=
  let output_pdf := "Fee_Waiver_Request_Bo_Shang.pdf" in
  generate_fee_waiver_request output_pdf ;;
  path <- abspath output_pdf ;;
  print ("PDF generated and saved as: " +:+ path).

(** [if __name__ == '__main__': main()] *)
Definition script_main (argv : list string) : M unit := main argv.

End WithReportLab.
End FeeWaiver.

(** ** The three generators *)

Inductive generator := complaint | cover_sheet | fee_waiver.

Section Generators.
Context {rl : ReportLab}.

(** The generator function of each script. *)
Definition generate (g : generator) : string -> M unit :=
  match g with
  | complaint => Complaint.generate_civil_action_pdf
  | cover_sheet => Cover.create_civil_cover_sheet
  | fee_waiver => FeeWaiver.generate_fee_waiver_request
  end.

(** The [__main__] block of each script. *)
Definition script_of (g : generator) : list string -> M unit :=
  match g with
  | complaint => Complaint.script_main
  | cover_sheet => Cover.script_main
  | fee_waiver => FeeWaiver.script_main
  end.

End Generators.

(** The file name each script uses when it is given none. *)
Definition default_filename (g : generator) : string :=
  match g with
  | complaint => "CivilActionComplaint.pdf"
  | cover_sheet => "CivilActionCoverSheet.pdf"
  | fee_waiver => "Fee_Waiver_Request_Bo_Shang.pdf"
  end.

(** ** Observations of a run *)

(** The call log of running [m] in a fresh state. *)
Definition run_trace {A} (m : M A) (w : World) : list Event :=
  trace (final_state (m (initial w))).

Definition raised {A} (o : Outcome A) : option exn :=
  match o with Ok _ _ => None | Raise e _ => Some e end.

(** The styles defined, the blocks appended and the render calls made, each
    in call order. *)
Definition defined_styles (tr : list Event) : list Style :=
  omap (fun e => match e with EvStyle s => Some s | _ => None end) tr.

Definition appended (tr : list Event) : list Flowable :=
  omap (fun e => match e with EvAppend b => Some b | _ => None end) tr.

Definition handed (tr : list Event) : list RenderCall :=
  omap (fun e => match e with EvRender c => Some c | _ => None end) tr.

(** What a render call carries besides the target path. *)
Inductive Content :=
| platypus_content (pagesize_ : Q * Q) (margins : Q * Q * Q * Q)
    (metadata : option string * option string * option string)
    (flowables : list Flowable)
| canvas_content (pagesize_ : Q * Q) (ops : list CanvasOp).

Definition call_content (call : RenderCall) : Content :=
  match call with
  | call_build doc flowables =>
    platypus_content (pagesize doc)
      (leftMargin doc, rightMargin doc, topMargin doc, bottomMargin doc)
      (title doc, author doc, subject doc) flowables
  | call_save c => canvas_content (c_pagesize c) (c_ops c)
  end.

(** The paragraph styles a block refers to: its own for a paragraph, those
    of its cells for a table, none for a spacer or a page break. *)
Fixpoint styles_of (b : Flowable) : list Style :=
  match b with
  | Paragraph _ s => [s]
  | Spacer _ _ => []
  | PageBreak => []
  | Table data _ _ _ => flat_map (flat_map styles_of) data
  end.

(** The block the bullet loop appends for the item [bp]. *)
Definition bullet_item (s : Style) (bp : string) : Flowable :=
  Paragraph ("• " +:+ bp) s.

(** A paragraph whose style goes by the name [n]. *)
Definition styled_as (n : string) (b : Flowable) : bool :=
  match b with
  | Paragraph _ s => String.eqb (name s) n
  | _ => false
  end.

(** A style is known at render time when it is among the styles [sty] the
    run defined or comes from the sample style sheet. *)
Definition registered {rl : ReportLab} (sty : list Style) (s : Style) : Prop :=
  In s sty \/ exists n, s = getSampleStyleSheet n.

(** Every row of a table has as many cells as there are column widths. *)
Definition rows_match (b : Flowable) : Prop :=
  match b with
  | Table data _ colWidths _ =>
    Forall (fun row => length row = length colWidths) data
  | _ => True
  end.

(** The path each script resolves from its arguments: the complaint takes
    its first argument when there is one; the cover sheet and the fee waiver
    take none. *)
Definition resolved_path (g : generator) (argv : list string) : string :=
  match g, argv with
  | complaint, _ :: p :: _ => p
  | _, _ => default_filename g
  end.

(** ** A concrete library and environment, for closed examples *)

Definition sample_Normal : Style :=
  mkStyle "Normal" None "Helvetica" 10 12 0 TA_LEFT 0 0 "Helvetica" 10 0 black.

Definition sample_styles (n : string) : Style :=
  if String.eqb n "Title" then
    new_style "Title" sample_Normal
      [kw_fontSize 18; kw_leading 22; kw_alignment TA_CENTER; kw_spaceAfter 6]
  else if String.eqb n "Heading1" then
    new_style "Heading1" sample_Normal
      [kw_fontSize 18; kw_leading 22; kw_spaceAfter 6]
  else if String.eqb n "Heading2" then
    new_style "Heading2" sample_Normal
      [kw_fontSize 14; kw_leading 18; kw_spaceBefore 12; kw_spaceAfter 6]
  else sample_Normal.

(** Splitting at line feeds, with no wrapping. *)
Fixpoint split_lines (s : string) : list string :=
  match s with
  | EmptyString => [EmptyString]
  | String c rest =>
    if Ascii.eqb c "010" then EmptyString :: split_lines rest
    else match split_lines rest with
         | [] => [String c EmptyString]
         | l :: ls => String c l :: ls
         end
  end.

Definition sample_reportlab : ReportLab :=
  {| getSampleStyleSheet := sample_styles;
     layout := fun _ _ => inr (list_byte_of_string "%PDF-1.4");
     canvas_bytes := fun _ => inr (list_byte_of_string "%PDF-1.3");
     simpleSplit := fun text _ _ _ => split_lines text |}.

Definition empty_world : World := mkWorld ∅ ∅ "/home/bo" [] [].

(** The same environment with [path] not writable. *)
Definition locked_world (path : string) : World :=
  mkWorld ∅ {[ path ]} "/home/bo" [] [].

(** ** Bookkeeping for the proofs *)

(** The drawing operations [draw_multiline_text] adds for [lines], and the
    [y] it returns. *)
Fixpoint line_ops (line_spacing x y : Q) (lines : list string) : list CanvasOp * Q :=
  match lines with
  | [] => ([], y)
  | line :: rest =>
    let r := line_ops line_spacing x (y - line_spacing)%Q rest in
    (op_drawString x y line :: fst r, snd r)
  end.

(** The line each script prints after a successful render. *)
Definition confirmation (g : generator) (p : string) (w : World) : string :=
  match g with
  | fee_waiver => "PDF generated and saved as: " +:+ join (cwd w) p
  | _ => "PDF generated successfully: " +:+ p
  end.

(** The environment a generator function leaves after a successful render
    that produced [w]: the complaint and the cover sheet print their
    confirmation themselves, the fee waiver leaves that to [main]. *)
Definition generated (g : generator) (p : string) (w : World) : World :=
  match g with
  | fee_waiver => w
  | _ => put_stdout (confirmation g p w) w
  end.

(** A block is in order when its rows match its column widths and the
    styles it refers to are known. *)
Definition block_ok {rl : ReportLab} (sty : list Style) (b : Flowable) : Prop :=
  rows_match b /\ Forall (registered sty) (styles_of b).

(** ** Bookkeeping for the further properties *)

(** Logging the events [es] one after the other, as [log] does. *)
Definition log_all (t : list Event) (es : list Event) : list Event :=
  fold_left (fun acc e => acc ++ [e]) es t.

(** The heights at which a list of canvas operations draws strings. *)
Definition drawn_ys (ops : list CanvasOp) : list Q :=
  omap (fun op => match op with op_drawString _ y _ => Some y | _ => None end) ops.

Definition is_showPage (op : CanvasOp) : bool :=
  match op with op_showPage => true | _ => false end.

(** [steps_down top gap ys]: the first height is at most [top] and every
    next one is at least [gap] below the one before. *)
Fixpoint steps_down (top gap : Q) (ys : list Q) : Prop :=
  match ys with
  | [] => True
  | y :: rest => (y <= top)%Q /\ steps_down (y - gap)%Q gap rest
  end.

(** The sum of a table's column widths. *)
Definition total_width (colWidths : list Q) : Q :=
  fold_right Qplus 0%Q colWidths.

(** A table fits the frame of [doc] when its columns are no wider together
    than the page between the left and right margins. *)
Definition fits_frame (doc : DocTemplate) (b : Flowable) : Prop :=
  match b with
  | Table _ _ colWidths _ =>
    (total_width colWidths <= fst (pagesize doc) - leftMargin doc - rightMargin doc)%Q
  | _ => True
  end.

(** The operations the fee waiver records on its canvas when the court
    block is split into [lines1] and the statement into [lines2]. *)
Definition page_ops (lines1 lines2 : list string) : list CanvasOp :=
  let top := (snd LETTER - inch)%Q in
  let court := line_ops 14 inch (top - 2 * 14)%Q lines1 in
  let statement := line_ops 14 inch (snd court - 14)%Q lines2 in
  [op_setTitle "Fee Waiver Request - Bo Shang";
   op_setFont "Times-Roman" 12;
   op_setFont "Times-Bold" 14;
   op_drawString inch top "Fee Waiver Request";
   op_setFont "Times-Roman" 12]
  ++ fst court
  ++ fst statement
  ++ [op_drawString inch (snd statement - 2 * 14)%Q
        "Signature (on behalf of Applicant): _______Bo Shang______   Date: ___2/13/2025__";
      op_drawString inch (snd statement - 2 * 14 - 14)%Q "Signed By: /s/ Bo Shang";
      op_showPage].

(** The list a generator function leaves in [story]: the blocks it
    appended, or, for the fee waiver, the list as it was. *)
Definition story_after (g : generator) (st : State) (blocks : list Flowable)
  : list Flowable :=
  match g with
  | fee_waiver => story st
  | _ => blocks
  end.

(** * Properties *)

(** ** Running the monad *)

Ltac run_script_steps :=
  cbv beta iota zeta delta
    [Complaint.generate_civil_action_pdf Cover.create_civil_cover_sheet
     bind ret ParagraphStyle new_list append for_ log set_story initial
     world story trace app TableStyle setStyle].

Ltac find_in :=
  lazymatch goal with
  | |- In ?s (?t :: _) => first [constr_eq s t; left; exact eq_refl | right; find_in]
  end.

Ltac pick_style :=
  idtac;
  lazymatch goal with
  | |- registered _ (getSampleStyleSheet ?n) => right; exists n; exact eq_refl
  | |- registered _ _ => left; find_in
  end.

Ltac each_block tac :=
  repeat (first [apply List.Forall_nil | apply List.Forall_cons; [tac|]]).

Section Steps.
Context {rl : ReportLab}.

Lemma render_raises (call : RenderCall) (k : M unit) (st : State) (e : exn) :
  render_write call (world st) = inl e ->
  (render call ;; k) st = Raise e (log (EvRender call) st).
Proof.
  intros H. unfold bind, render. rewrite H. reflexivity.
Qed.

Lemma render_returns (call : RenderCall) (k : M unit) (st : State) (w' : World) :
  render_write call (world st) = inr w' ->
  (render call ;; k) st = k (set_world w' (log (EvRender call) st)).
Proof.
  intros H. unfold bind, render. rewrite H. reflexivity.
Qed.

Lemma build_then_print (doc : DocTemplate) (line : string) (st : State) :
  (build doc ;; print line) st
  = match render_write (call_build doc (story st)) (world st) with
    | inl e => Raise e (log (EvRender (call_build doc (story st))) st)
    | inr w' =>
      Ok tt (set_world (put_stdout line w')
               (log (EvRender (call_build doc (story st))) st))
    end.
Proof.
  unfold bind, build, render.
  destruct (render_write _ (world st)); reflexivity.
Qed.

Lemma render_alone (call : RenderCall) (st : State) :
  render call st = (render call ;; ret tt) st.
Proof.
  unfold bind, render, ret. destruct (render_write call (world st)); reflexivity.
Qed.

(** What a render call writes: one file, at the call's target. *)
Lemma render_write_target (call : RenderCall) (w w' : World) :
  render_write call w = inr w' ->
  exists data, w' = put_file (call_target call) data w.
Proof.
  unfold render_write.
  destruct call as [doc fl | c].
  - destruct (layout doc fl) as [e | data]; [discriminate |].
    case_decide; [discriminate |]. intros [= <-]. now exists data.
  - destruct (canvas_bytes c) as [e | data]; [discriminate |].
    case_decide; [discriminate |]. intros [= <-]. now exists data.
Qed.

Lemma fold_draw (line_spacing x : Q) (lines : list string) :
  forall (c : Canvas) (y : Q),
    fold_left
      (fun (cy : Canvas * Q) (line : string) =>
         (drawString (fst cy) x (snd cy) line, (snd cy - line_spacing)%Q))
      lines (c, y)
    = (mkCanvas (c_filename c) (c_pagesize c)
         (c_ops c ++ fst (line_ops line_spacing x y lines)),
       snd (line_ops line_spacing x y lines)).
Proof.
  induction lines as [| line rest IH]; intros c y; simpl.
  - rewrite app_nil_r. now destruct c.
  - rewrite IH. simpl. now rewrite <- app_assoc.
Qed.

Lemma draw_multiline_text_ops (line_spacing : Q) (c : Canvas) (text : string)
    (x y max_width : Q) :
  let lines := simpleSplit text "Times-Roman" 12 max_width in
  FeeWaiver.draw_multiline_text line_spacing c text x y max_width
  = (mkCanvas (c_filename c) (c_pagesize c)
       (c_ops c ++ fst (line_ops line_spacing x y lines)),
     snd (line_ops line_spacing x y lines)).
Proof.
  apply fold_draw.
Qed.

End Steps.

(** ** The shape of each generator's run *)

Lemma complaint_shape (rl : ReportLab) :
  exists tr sty blocks,
    (forall p w,
      Complaint.generate_civil_action_pdf p (initial w)
      = (build {| filename := p; pagesize := letter;
                  leftMargin := (1 * inch)%Q; rightMargin := (1 * inch)%Q;
                  topMargin := (0.75 * inch)%Q; bottomMargin := (0.75 * inch)%Q;
                  title := Some "Civil Action Complaint";
                  author := Some "Bo Shang";
                  subject := Some "Complaint for Damages, Injunctive Relief, and Other Relief" |} ;;
         print ("PDF generated successfully: " +:+ p)) (mkState w blocks tr))
    /\ appended tr = blocks
    /\ handed tr = []
    /\ defined_styles tr = sty
    /\ NoDup (map name sty)
    /\ Forall (block_ok sty) blocks.
Proof.
  eexists. eexists. eexists.
  split.
  { intros p w. run_script_steps. reflexivity. }
  split. { cbv [appended omap list_omap]. reflexivity. }
  split. { reflexivity. }
  split. { cbv [defined_styles omap list_omap]. reflexivity. }
  split. { vm_compute. apply (bool_decide_unpack _). vm_compute. exact I. }
  each_block ltac:(split; [exact I | cbn [styles_of]; each_block pick_style]).
Qed.

Lemma cover_shape (rl : ReportLab) :
  exists tr sty blocks,
    (forall p w,
      Cover.create_civil_cover_sheet p (initial w)
      = (build {| filename := p; pagesize := LETTER;
                  leftMargin := 72; rightMargin := 72;
                  topMargin := 72; bottomMargin := 72;
                  title := None; author := None; subject := None |} ;;
         print ("PDF generated successfully: " +:+ p)) (mkState w blocks tr))
    /\ appended tr = blocks
    /\ handed tr = []
    /\ defined_styles tr = sty
    /\ NoDup (map name sty)
    /\ Forall (block_ok sty) blocks.
Proof.
  eexists. eexists. eexists.
  split.
  { intros p w. run_script_steps. reflexivity. }
  split. { cbv [appended omap list_omap]. reflexivity. }
  split. { reflexivity. }
  split. { cbv [defined_styles omap list_omap]. reflexivity. }
  split. { vm_compute. apply (bool_decide_unpack _). vm_compute. exact I. }
  each_block ltac:(split;
    [ first [exact I | cbn [rows_match]; each_block ltac:(reflexivity)]
    | cbn [styles_of flat_map app]; each_block pick_style]).
Qed.

Lemma fee_waiver_shape (rl : ReportLab) :
  exists ops,
    forall p w,
      FeeWaiver.generate_fee_waiver_request p (initial w)
      = save (mkCanvas p LETTER ops) (initial w).
Proof.
  eexists. intros p w.
  unfold FeeWaiver.generate_fee_waiver_request. cbv zeta.
  rewrite !draw_multiline_text_ops.
  unfold setTitle, setFont, drawString, showPage, canvas_op.
  cbn [fst snd c_ops c_filename c_pagesize].
  reflexivity.
Qed.


(** The bullet blocks of the complaint: the paragraphs in the bullet style
    are, in order, the items of the seven lists, one block each. *)
Lemma complaint_bullet_shape (rl : ReportLab) :
  exists tr blocks,
    (forall p w,
      Complaint.generate_civil_action_pdf p (initial w)
      = (build {| filename := p; pagesize := letter;
                  leftMargin := (1 * inch)%Q; rightMargin := (1 * inch)%Q;
                  topMargin := (0.75 * inch)%Q; bottomMargin := (0.75 * inch)%Q;
                  title := Some "Civil Action Complaint";
                  author := Some "Bo Shang";
                  subject := Some "Complaint for Damages, Injunctive Relief, and Other Relief" |} ;;
         print ("PDF generated successfully: " +:+ p)) (mkState w blocks tr))
    /\ exists s,
        In s (defined_styles tr)
        /\ name s = "BulletedListStyle"
        /\ List.filter (styled_as "BulletedListStyle") (appended tr)
           = map (bullet_item s)
               (Complaint.bullet_points_intro_1 ++ Complaint.bullet_points_8
                ++ Complaint.bullet_points_9 ++ Complaint.bullet_points_10
                ++ Complaint.bullet_points_11 ++ Complaint.bullet_points_12
                ++ Complaint.bullet_points_damages).
Proof.
  eexists. eexists.
  split.
  { intros p w. run_script_steps. reflexivity. }
  eexists. split.
  { cbv [defined_styles omap list_omap]. do 5 right. left. reflexivity. }
  split; [reflexivity |].
  vm_compute. reflexivity.
Qed.

(** ** Shapes from an arbitrary state *)

Lemma log_all_app (es t : list Event) : log_all t es = t ++ es.
Proof.
  unfold log_all. revert t.
  induction es as [| e es IH]; intros t; simpl.
  - now rewrite app_nil_r.
  - rewrite IH. now rewrite <- app_assoc.
Qed.

Ltac staged_log :=
  let t := fresh "t" in
  intros t;
  match goal with
  | |- ?lhs = t ++ ?rest =>
    transitivity (log_all t rest);
      [vm_compute; reflexivity | apply log_all_app]
  end.

Lemma complaint_shape_any (rl : ReportLab) :
  exists (f : list Event -> list Event) blocks,
    (forall p w s0 t0,
      Complaint.generate_civil_action_pdf p (mkState w s0 t0)
      = (build {| filename := p; pagesize := letter;
                  leftMargin := (1 * inch)%Q; rightMargin := (1 * inch)%Q;
                  topMargin := (0.75 * inch)%Q; bottomMargin := (0.75 * inch)%Q;
                  title := Some "Civil Action Complaint";
                  author := Some "Bo Shang";
                  subject := Some "Complaint for Damages, Injunctive Relief, and Other Relief" |} ;;
         print ("PDF generated successfully: " +:+ p)) (mkState w blocks (f t0)))
    /\ (forall t, f t = t ++ map EvStyle (defined_styles (f [])) ++ map EvAppend blocks)
    /\ (forall doc, Forall (fits_frame doc) blocks).
Proof.
  eexists. eexists.
  split.
  { intros p w s0 t0. run_script_steps. reflexivity. }
  split.
  { staged_log. }
  intros doc. each_block ltac:(exact I).
Qed.

Lemma cover_shape_any (rl : ReportLab) :
  exists (f : list Event -> list Event) blocks,
    (forall p w s0 t0,
      Cover.create_civil_cover_sheet p (mkState w s0 t0)
      = (build {| filename := p; pagesize := LETTER;
                  leftMargin := 72; rightMargin := 72;
                  topMargin := 72; bottomMargin := 72;
                  title := None; author := None; subject := None |} ;;
         print ("PDF generated successfully: " +:+ p)) (mkState w blocks (f t0)))
    /\ (forall t, f t = t ++ map EvStyle (defined_styles (f [])) ++ map EvAppend blocks)
    /\ Forall (fits_frame {| filename := EmptyString; pagesize := LETTER;
                             leftMargin := 72; rightMargin := 72;
                             topMargin := 72; bottomMargin := 72;
                             title := None; author := None; subject := None |})
              blocks.
Proof.
  eexists. eexists.
  split.
  { intros p w s0 t0. run_script_steps. reflexivity. }
  split.
  { staged_log. }
  each_block ltac:(first [exact I | vm_compute; discriminate]).
Qed.

Lemma fee_waiver_ops (rl : ReportLab) :
  exists lines1 lines2,
    forall p st,
      FeeWaiver.generate_fee_waiver_request p st
      = save (mkCanvas p LETTER (page_ops lines1 lines2)) st.
Proof.
  eexists. eexists. intros p st.
  unfold FeeWaiver.generate_fee_waiver_request. cbv zeta.
  rewrite !draw_multiline_text_ops.
  unfold setTitle, setFont, drawString, showPage, canvas_op.
  cbn [fst snd c_ops c_filename c_pagesize].
  unfold page_ops. cbv zeta.
  rewrite <- !app_assoc. cbn [app].
  reflexivity.
Qed.

(** From here on the generator functions are used through their shapes. *)
Opaque Complaint.generate_civil_action_pdf Cover.create_civil_cover_sheet
  FeeWaiver.generate_fee_waiver_request.

(** ** One statement for the three generators *)

Lemma append_assoc (a b c : string) : (a +:+ b) +:+ c = a +:+ (b +:+ c).
Proof.
  induction a as [| ch a' IH]; [reflexivity |].
  change (String ch ((a' +:+ b) +:+ c) = String ch (a' +:+ (b +:+ c))).
  now rewrite IH.
Qed.

Lemma join_ends_with (a b : string) : exists prefix, join a b = prefix +:+ b.
Proof.
  unfold join.
  destruct (String.prefix "/" b); [now exists EmptyString |].
  destruct (String.eqb a EmptyString); [now exists EmptyString |].
  destruct (String.eqb _ "/").
  - now exists a.
  - exists (a +:+ "/"). now rewrite append_assoc.
Qed.

Lemma confirmation_ends_with (g : generator) (p : string) (w : World) :
  exists prefix, confirmation g p w = prefix +:+ p.
Proof.
  destruct g; simpl; try (now eexists).
  destruct (join_ends_with (cwd w) p) as [prefix ->].
  exists ("PDF generated and saved as: " +:+ prefix).
  now rewrite append_assoc.
Qed.

Lemma set_kw_name (s : Style) (kw : StyleKw) : name (set_kw s kw) = name s.
Proof. destruct s, kw; reflexivity. Qed.

Lemma fold_set_kw_name (kw : list StyleKw) :
  forall s, name (fold_left set_kw kw s) = name s.
Proof.
  induction kw as [| k kw IH]; intros s; simpl; [reflexivity |].
  now rewrite IH, set_kw_name.
Qed.

Lemma new_style_name (n : string) (parent_ : Style) (kw : list StyleKw) :
  name (new_style n parent_ kw) = n.
Proof.
  unfold new_style. now rewrite fold_set_kw_name.
Qed.

(** The path the script hands to its generator function, and what it does
    after the function returns. *)
Lemma script_unfold (rl : ReportLab) (g : generator) (argv : list string) (st : State) :
  script_of g argv st
  = match generate g (resolved_path g argv) st with
    | Ok _ st' =>
      match g with
      | fee_waiver =>
        Ok tt (set_world
                 (put_stdout (confirmation g (resolved_path g argv) (world st'))
                    (world st')) st')
      | _ => Ok tt st'
      end
    | Raise e st' => Raise e st'
    end.
Proof.
  destruct g; cbv [script_of generate resolved_path default_filename].
  - unfold Complaint.script_main, Complaint.main.
    destruct argv as [| a [| p rest]]; cbv [length Nat.ltb Nat.leb nth];
      match goal with
      | |- ?m = _ => generalize m; intros [[] ?|]; reflexivity
      end.
  - unfold Cover.script_main.
    match goal with
    | |- ?m = _ => generalize m; intros [[] ?|]; reflexivity
    end.
  - unfold FeeWaiver.script_main, FeeWaiver.main, bind.
    generalize (FeeWaiver.generate_fee_waiver_request
                  "Fee_Waiver_Request_Bo_Shang.pdf" st).
    intros [[] st'|]; reflexivity.
Qed.

(** Every run is a prelude that does not depend on the path or on the
    environment, followed by one render call aimed at the path. *)
Lemma generate_run (rl : ReportLab) (g : generator) :
  exists tr sty blocks content,
    appended tr = blocks /\ handed tr = [] /\ defined_styles tr = sty
    /\ NoDup (map name sty) /\ Forall (block_ok sty) blocks
    /\ forall p w, exists call,
        call_target call = p /\ call_content call = content
        /\ match call with
           | call_build _ flowables => flowables = blocks
           | call_save _ => g = fee_waiver
           end
        /\ generate g p (initial w)
           = match render_write call w with
             | inl e => Raise e (mkState w blocks (tr ++ [EvRender call]))
             | inr w' =>
               Ok tt (mkState (generated g p w') blocks (tr ++ [EvRender call]))
             end.
Proof.
  destruct g.
  - destruct (complaint_shape rl) as (tr & sty & blocks & Hrun & Ha & Hh & Hs & Hn & Hb).
    exists tr, sty, blocks. eexists. repeat (split; [assumption |]).
    intros p w. eexists. split; [| split; [| split]]; cycle 3.
    { unfold generate. rewrite Hrun, build_then_print. reflexivity. }
    { reflexivity. }
    { cbv [call_content pagesize leftMargin rightMargin topMargin bottomMargin
           title author subject story]. reflexivity. }
    { reflexivity. }
  - destruct (cover_shape rl) as (tr & sty & blocks & Hrun & Ha & Hh & Hs & Hn & Hb).
    exists tr, sty, blocks. eexists. repeat (split; [assumption |]).
    intros p w. eexists. split; [| split; [| split]]; cycle 3.
    { unfold generate. rewrite Hrun, build_then_print. reflexivity. }
    { reflexivity. }
    { cbv [call_content pagesize leftMargin rightMargin topMargin bottomMargin
           title author subject story]. reflexivity. }
    { reflexivity. }
  - destruct (fee_waiver_shape rl) as (ops & Hrun).
    exists [], [], [], (canvas_content LETTER ops).
    repeat (split; [first [reflexivity | constructor] |]).
    intros p w. exists (call_save (mkCanvas p LETTER ops)).
    split; [reflexivity |]. split; [reflexivity |]. split; [reflexivity |].
    unfold generate. rewrite Hrun. unfold save, render. cbn [world story trace initial log].
    destruct (render_write _ w); reflexivity.
Qed.

Section Observed.
Context {rl : ReportLab}.

Lemma observe_run (g : generator) (tr : list Event) (blocks : list Flowable)
    (call : RenderCall) (p : string) (w : World) :
  generate g p (initial w)
  = match render_write call w with
    | inl e => Raise e (mkState w blocks (tr ++ [EvRender call]))
    | inr w' => Ok tt (mkState (generated g p w') blocks (tr ++ [EvRender call]))
    end ->
  run_trace (generate g p) w = tr ++ [EvRender call].
Proof.
  intros H. unfold run_trace. rewrite H.
  destruct (render_write call w); reflexivity.
Qed.

Lemma observe_script (g : generator) (argv : list string) (w : World) :
  run_trace (script_of g argv) w = run_trace (generate g (resolved_path g argv)) w.
Proof.
  unfold run_trace. rewrite script_unfold.
  destruct (generate g _ (initial w)) as [[] st'|]; [destruct g |]; reflexivity.
Qed.

Lemma handed_snoc (tr : list Event) (call : RenderCall) :
  handed (tr ++ [EvRender call]) = handed tr ++ [call].
Proof. unfold handed. now rewrite omap_app. Qed.

Lemma appended_snoc (tr : list Event) (call : RenderCall) :
  appended (tr ++ [EvRender call]) = appended tr.
Proof. unfold appended. rewrite omap_app. simpl. now rewrite app_nil_r. Qed.

Lemma defined_styles_snoc (tr : list Event) (call : RenderCall) :
  defined_styles (tr ++ [EvRender call]) = defined_styles tr.
Proof. unfold defined_styles. rewrite omap_app. simpl. now rewrite app_nil_r. Qed.

End Observed.

Lemma generate_complaint (rl : ReportLab) :
  Complaint.generate_civil_action_pdf = generate complaint.
Proof. unfold generate. reflexivity. Qed.

Lemma generate_cover_sheet (rl : ReportLab) :
  Cover.create_civil_cover_sheet = generate cover_sheet.
Proof. unfold generate. reflexivity. Qed.

(** What a run of a generator function shows in its call log. *)
Lemma generate_observed (rl : ReportLab) (g : generator) :
  exists sty blocks content,
    NoDup (map name sty) /\ Forall (block_ok sty) blocks
    /\ forall p w, exists call,
        call_target call = p /\ call_content call = content
        /\ match call with
           | call_build _ flowables => flowables = blocks
           | call_save _ => g = fee_waiver
           end
        /\ handed (run_trace (generate g p) w) = [call]
        /\ appended (run_trace (generate g p) w) = blocks
        /\ defined_styles (run_trace (generate g p) w) = sty.
Proof.
  destruct (generate_run rl g)
    as (tr & sty & blocks & content & Ha & Hh & Hs & Hn & Hb & Hrun).
  exists sty, blocks, content. split; [assumption |]. split; [assumption |].
  intros p w. destruct (Hrun p w) as (call & Ht & Hc & Hd & Heq).
  exists call. repeat (split; [assumption |]).
  rewrite (observe_run g tr blocks call p w Heq).
  rewrite handed_snoc, appended_snoc, defined_styles_snoc, Hh.
  now repeat split.
Qed.

(** ** The claims *)

(** C1, as amended: the complaint script writes its artifact at exactly its
    first argument when it has one, and at its default file name otherwise;
    the cover-sheet and fee-waiver scripts take no argument and always write
    at their default file names.  In each case, when the render call the
    script makes returns, exactly the file at the resolved path is written,
    the script exits with status 0, and the one line it prints ends with
    that path. *)
Theorem output_written_at_resolved_path (rl : ReportLab) (g : generator)
    (argv : list string) (w w' : World) (call : RenderCall) :
  handed (run_trace (script_of g argv) w) = [call] ->
  render_write call w = inr w' ->
  call_target call = resolved_path g argv
  /\ (exists data, w' = put_file (resolved_path g argv) data w)
  /\ exists prefix,
       run_script (script_of g) argv w
       = (0%Z, put_stdout (prefix +:+ resolved_path g argv) w').
Proof.
  intros Hcall Hok.
  destruct (generate_run rl g)
    as (tr & sty & blocks & content & Ha & Hh & Hs & Hn & Hb & Hrun).
  destruct (Hrun (resolved_path g argv) w) as (call0 & Ht & Hc & Hd & Heq).
  rewrite observe_script, (observe_run g tr blocks call0 _ w Heq) in Hcall.
  rewrite handed_snoc, Hh in Hcall. injection Hcall as <-.
  split; [assumption |]. split.
  { destruct (render_write_target _ _ _ Hok) as [data ->].
    exists data. now rewrite Ht. }
  destruct (confirmation_ends_with g (resolved_path g argv) w') as [prefix Hp].
  exists prefix. unfold run_script. rewrite script_unfold, Heq, Hok.
  destruct g; cbn [world set_world generated]; now rewrite Hp.
Qed.

(** C2: the sequence of blocks handed to [doc.build] is exactly the
    sequence appended, block for block and in the same order, in the
    complaint and in the cover sheet. *)
Theorem build_receives_appended (rl : ReportLab) (p : string) (w : World) :
  (exists doc,
     handed (run_trace (Complaint.generate_civil_action_pdf p) w)
     = [call_build doc
          (appended (run_trace (Complaint.generate_civil_action_pdf p) w))])
  /\ (exists doc,
        handed (run_trace (Cover.create_civil_cover_sheet p) w)
        = [call_build doc
             (appended (run_trace (Cover.create_civil_cover_sheet p) w))]).
Proof.
  split.
  - destruct (generate_observed rl complaint) as (sty & blocks & content & _ & _ & H).
    destruct (H p w) as (call & _ & _ & Hd & Hh & Ha & _).
    destruct call as [doc fl | c]; [subst fl | discriminate Hd].
    exists doc. rewrite generate_complaint, Hh, Ha. reflexivity.
  - destruct (generate_observed rl cover_sheet) as (sty & blocks & content & _ & _ & H).
    destruct (H p w) as (call & _ & _ & Hd & Hh & Ha & _).
    destruct call as [doc fl | c]; [subst fl | discriminate Hd].
    exists doc. rewrite generate_cover_sheet, Hh, Ha. reflexivity.
Qed.

(** The per-item loop, for any items and style. *)
Lemma for_append_bullets (items : list string) (s : Style) (st : State) :
  for_ items (fun bp => append (Paragraph ("• " +:+ bp) s)) st
  = Ok tt (mkState (world st) (story st ++ map (bullet_item s) items)
             (trace st ++ map (fun bp => EvAppend (bullet_item s bp)) items)).
Proof.
  revert st. induction items as [| bp rest IH]; intros st.
  - cbn [for_ map ret]. rewrite !app_nil_r. now destruct st.
  - cbn [for_ map]. unfold bind at 1. unfold append at 1.
    rewrite IH. cbn [world story trace log set_story].
    now rewrite <- !app_assoc.
Qed.

(** C3: the bullet loop appends one paragraph per item, in the order of the
    items, each holding the item after the bullet glyph and carrying the
    style given, for every list of items and every style.  So do the seven
    loops of the complaint: in every run, the paragraphs that carry the
    bullet style are, in order, the items of the seven lists looped over,
    one block for each item, each with the glyph before it and each in the
    style the run defined as BulletedListStyle. *)
Theorem bullet_loops_expand (rl : ReportLab) :
  (forall (items : list string) (s : Style) (st : State),
      for_ items (fun bp => append (Paragraph ("• " +:+ bp) s)) st
      = Ok tt (mkState (world st) (story st ++ map (bullet_item s) items)
                 (trace st ++ map (fun bp => EvAppend (bullet_item s bp)) items))
      /\ length (map (bullet_item s) items) = length items)
  /\ forall (p : string) (w : World),
      exists s,
        In s (defined_styles (run_trace (Complaint.generate_civil_action_pdf p) w))
        /\ name s = "BulletedListStyle"
        /\ List.filter (styled_as "BulletedListStyle")
             (appended (run_trace (Complaint.generate_civil_action_pdf p) w))
           = map (bullet_item s)
               (Complaint.bullet_points_intro_1 ++ Complaint.bullet_points_8
                ++ Complaint.bullet_points_9 ++ Complaint.bullet_points_10
                ++ Complaint.bullet_points_11 ++ Complaint.bullet_points_12
                ++ Complaint.bullet_points_damages).
Proof.
  split.
  - intros items s st. split; [apply for_append_bullets | apply length_map].
  - destruct (complaint_bullet_shape rl) as (tr & blocks & Hrun & s & Hin & Hname & Hf).
    intros p w. exists s. unfold run_trace.
    rewrite Hrun, build_then_print.
    destruct (render_write _ _);
      cbn [final_state trace log set_world world story];
      rewrite defined_styles_snoc, appended_snoc; now repeat split.
Qed.

(** C5, as amended: defining a style never fails, whatever names are in use
    already: [ParagraphStyle(name, parent, overrides)] always returns a style
    of that name, and there is no duplicate-name error.  Each generator
    defines every style name once: the names of the styles a run defines
    are pairwise distinct. *)
Theorem style_definition_never_fails (rl : ReportLab) :
  (forall (n : string) (parent_ : Style) (kw : list StyleKw) (st : State),
      exists s, ParagraphStyle n parent_ kw st = Ok s (log (EvStyle s) st)
                /\ name s = n)
  /\ (forall (g : generator) (p : string) (w : World),
         NoDup (map name (defined_styles (run_trace (generate g p) w)))).
Proof.
  split.
  - intros n parent_ kw st. exists (new_style n parent_ kw).
    split; [reflexivity | apply new_style_name].
  - intros g p w.
    destruct (generate_observed rl g) as (sty & blocks & content & Hn & _ & H).
    destruct (H p w) as (call & _ & _ & _ & _ & _ & ->). exact Hn.
Qed.

(** C6: in every document a generator hands to the renderer, every row of
    every table has exactly as many cells as the table has column widths. *)
Theorem table_rows_match_widths (rl : ReportLab) (g : generator) (p : string)
    (w : World) :
  Forall (fun call =>
            match call with
            | call_build _ flowables => Forall rows_match flowables
            | call_save _ => True
            end)
         (handed (run_trace (generate g p) w)).
Proof.
  destruct (generate_observed rl g) as (sty & blocks & content & _ & Hb & H).
  destruct (H p w) as (call & _ & _ & Hd & -> & _ & _).
  constructor; [| constructor].
  destruct call as [doc fl | c]; [subst fl | exact I].
  eapply Forall_impl; [exact Hb |]. now intros b [Hr _].
Qed.

(** C7, as amended: at render time every style a block refers to is known:
    it was defined earlier in the same run or comes from the sample style
    sheet.  A paragraph carries exactly one style, a table those of its
    cells, a spacer and a page break none.  A block holds its style itself,
    so appending never fails. *)
Theorem styles_known_at_render (rl : ReportLab) :
  (forall (g : generator) (p : string) (w : World),
      Forall (fun call =>
                match call with
                | call_build _ flowables =>
                  Forall (fun b =>
                            Forall (registered
                                      (defined_styles (run_trace (generate g p) w)))
                                   (styles_of b))
                         flowables
                | call_save _ => True
                end)
             (handed (run_trace (generate g p) w)))
  /\ (forall text s, styles_of (Paragraph text s) = [s])
  /\ (forall width height, styles_of (Spacer width height) = [])
  /\ styles_of PageBreak = []
  /\ (forall b st, raised (append b st) = None).
Proof.
  split; [| now repeat split].
  intros g p w.
  destruct (generate_observed rl g) as (sty & blocks & content & _ & Hb & H).
  destruct (H p w) as (call & _ & _ & Hd & -> & _ & ->).
  constructor; [| constructor].
  destruct call as [doc fl | c]; [subst fl | exact I].
  eapply Forall_impl; [exact Hb |]. now intros b [_ Hs].
Qed.

(** C8: when the render-and-write step of an invocation raises, the error
    leaves the generator function and the script unhandled, with the
    environment as it was; the process exits with status 1 and the error on
    standard error, and nothing is printed on standard output. *)
Theorem render_error_propagates (rl : ReportLab) (g : generator)
    (argv : list string) (w : World) (call : RenderCall) (e : exn) :
  handed (run_trace (script_of g argv) w) = [call] ->
  render_write call w = inl e ->
  (exists st, generate g (resolved_path g argv) (initial w) = Raise e st
              /\ world st = w)
  /\ (exists st, script_of g argv (initial w) = Raise e st /\ world st = w)
  /\ run_script (script_of g) argv w = (1%Z, put_stderr (traceback e) w)
  /\ stdout (snd (run_script (script_of g) argv w)) = stdout w.
Proof.
  intros Hcall Herr.
  destruct (generate_run rl g)
    as (tr & sty & blocks & content & Ha & Hh & Hs & Hn & Hb & Hrun).
  destruct (Hrun (resolved_path g argv) w) as (call0 & Ht & Hc & Hd & Heq).
  rewrite observe_script, (observe_run g tr blocks call0 _ w Heq) in Hcall.
  rewrite handed_snoc, Hh in Hcall. injection Hcall as <-.
  rewrite Herr in Heq.
  assert (Hscript : script_of g argv (initial w)
                    = Raise e (mkState w blocks (tr ++ [EvRender call0]))).
  { now rewrite script_unfold, Heq. }
  split; [eexists; split; [exact Heq | reflexivity] |].
  split; [eexists; split; [exact Hscript | reflexivity] |].
  unfold run_script. rewrite Hscript. now split.
Qed.

(** C10: the output path does not reach the document.  For every generator
    and every two paths (and environments), the styles defined, the blocks
    appended and everything handed to the renderer but the target path are
    the same in both runs; the path shows only as the target of the render
    call. *)
Theorem output_path_noninterference (rl : ReportLab) (g : generator)
    (p1 p2 : string) (w1 w2 : World) :
  let tr1 := run_trace (generate g p1) w1 in
  let tr2 := run_trace (generate g p2) w2 in
  defined_styles tr1 = defined_styles tr2
  /\ appended tr1 = appended tr2
  /\ map call_content (handed tr1) = map call_content (handed tr2)
  /\ map call_target (handed tr1) = [p1]
  /\ map call_target (handed tr2) = [p2].
Proof.
  intros tr1 tr2. subst tr1 tr2.
  destruct (generate_observed rl g) as (sty & blocks & content & _ & _ & H).
  destruct (H p1 w1) as (c1 & Ht1 & Hc1 & _ & -> & -> & ->).
  destruct (H p2 w2) as (c2 & Ht2 & Hc2 & _ & -> & -> & ->).
  cbn [map]. now rewrite Ht1, Ht2, Hc1, Hc2.
Qed.

(** ** Closed instances *)

(** C1, witness: the complaint script with one argument, in an empty
    environment. *)
Lemma output_written_at_resolved_path_witness :
  let argv := ["gen_complaint.py"; "out/complaint.pdf"] in
  exists call w',
    handed (run_trace (@script_of sample_reportlab complaint argv) empty_world) = [call]
    /\ @render_write sample_reportlab call empty_world = inr w'
    /\ call_target call = resolved_path complaint argv
    /\ (exists data, w' = put_file (resolved_path complaint argv) data empty_world)
    /\ exists prefix,
         run_script (@script_of sample_reportlab complaint) argv empty_world
         = (0%Z, put_stdout (prefix +:+ resolved_path complaint argv) w').
Proof.
  intros argv. eexists. eexists.
  split; [vm_compute; reflexivity |].
  split; [vm_compute; reflexivity |].
  apply (output_written_at_resolved_path sample_reportlab complaint argv empty_world);
    vm_compute; reflexivity.
Defined.

(** C1, counterexample: given one argument, the cover-sheet script and the
    fee-waiver script write nothing at that path; they write at their
    default file names, and the line printed names the default. *)
Lemma path_argument_ignored :
  let cover := run_script (@script_of sample_reportlab cover_sheet)
                 ["gen_cover.py"; "out.pdf"] empty_world in
  let waiver := run_script (@script_of sample_reportlab fee_waiver)
                  ["gen_fee_waiver.py"; "out.pdf"] empty_world in
  (fst cover = 0%Z
   /\ files (snd cover) !! "out.pdf" = None
   /\ files (snd cover) !! "CivilActionCoverSheet.pdf"
      = Some (list_byte_of_string "%PDF-1.4")
   /\ stdout (snd cover) = ["PDF generated successfully: CivilActionCoverSheet.pdf"])
  /\ (fst waiver = 0%Z
      /\ files (snd waiver) !! "out.pdf" = None
      /\ files (snd waiver) !! "Fee_Waiver_Request_Bo_Shang.pdf"
         = Some (list_byte_of_string "%PDF-1.3")
      /\ stdout (snd waiver)
         = ["PDF generated and saved as: /home/bo/Fee_Waiver_Request_Bo_Shang.pdf"]).
Proof.
  vm_compute. repeat split.
Qed.

(** C5, counterexample: a second style under a name in use is accepted. *)
Lemma duplicate_style_name_accepted :
  let twice :=
    (ParagraphStyle "TitleStyle" sample_Normal [kw_fontSize 16] ;;
     ParagraphStyle "TitleStyle" sample_Normal [kw_fontSize 14]) in
  raised (twice (initial empty_world)) = None
  /\ map name (defined_styles (run_trace twice empty_world))
     = ["TitleStyle"; "TitleStyle"].
Proof.
  vm_compute. split; reflexivity.
Qed.

(** C7, counterexample: the second block of the complaint is a spacer,
    which refers to no style; and a paragraph whose style was never defined
    is appended without error. *)
Lemma spacer_refers_to_no_style :
  ~ (forall doc flowables b,
        handed (run_trace (@generate sample_reportlab complaint "out.pdf") empty_world)
        = [call_build doc flowables] ->
        In b flowables ->
        exists s,
          styles_of b = [s]
          /\ @registered sample_reportlab
               (defined_styles
                  (run_trace (@generate sample_reportlab complaint "out.pdf")
                     empty_world)) s)
  /\ (let stray := new_style "Undefined" sample_Normal [] in
      ~ @registered sample_reportlab [] stray
      /\ raised (append (Paragraph "text" stray) (initial empty_world)) = None).
Proof.
  split.
  - intros H.
    assert (Hx : exists s,
               styles_of (Spacer 1 4) = [s]
               /\ @registered sample_reportlab
                    (defined_styles
                       (run_trace (@generate sample_reportlab complaint "out.pdf")
                          empty_world)) s).
    { eapply H; [vm_compute; reflexivity | vm_compute; right; left; reflexivity]. }
    destruct Hx as (s & Hs & _). discriminate Hs.
  - split; [| reflexivity].
    intros [[] | [n Hn]].
    apply (f_equal name) in Hn. cbv [getSampleStyleSheet sample_reportlab sample_styles] in Hn.
    repeat destruct (String.eqb n _); vm_compute in Hn; discriminate Hn.
Qed.

(** C8, witness: the complaint script aimed at a path that cannot be
    written. *)
Lemma render_error_propagates_witness :
  let argv := ["gen_complaint.py"; "/root/complaint.pdf"] in
  let w := locked_world "/root/complaint.pdf" in
  let e := mkExn "PermissionError" "/root/complaint.pdf" in
  exists call,
    handed (run_trace (@script_of sample_reportlab complaint argv) w) = [call]
    /\ @render_write sample_reportlab call w = inl e
    /\ (exists st, @generate sample_reportlab complaint (resolved_path complaint argv)
                     (initial w) = Raise e st /\ world st = w)
    /\ (exists st, @script_of sample_reportlab complaint argv (initial w) = Raise e st
                   /\ world st = w)
    /\ run_script (@script_of sample_reportlab complaint) argv w
       = (1%Z, put_stderr (traceback e) w)
    /\ stdout (snd (run_script (@script_of sample_reportlab complaint) argv w))
       = stdout w.
Proof.
  intros argv w e. eexists.
  split; [vm_compute; reflexivity |].
  split; [vm_compute; reflexivity |].
  eapply (render_error_propagates sample_reportlab complaint argv w);
    vm_compute; reflexivity.
Defined.

(** * Further properties *)

(** ** Drawing wrapped text on the canvas *)

Lemma inject_succ (k : nat) :
  (inject_Z (Z.of_nat (S k)) == inject_Z (Z.of_nat k) + 1)%Q.
Proof.
  rewrite Nat2Z.inj_succ, <- Z.add_1_r, inject_Z_plus. reflexivity.
Qed.

Lemma line_ops_lines (line_spacing x : Q) (lines : list string) :
  forall y : Q,
    length (fst (line_ops line_spacing x y lines)) = length lines
    /\ (forall (k : nat) (line : string),
           lines !! k = Some line ->
           exists yk,
             fst (line_ops line_spacing x y lines) !! k
             = Some (op_drawString x yk line)
             /\ (yk == y - inject_Z (Z.of_nat k) * line_spacing)%Q)
    /\ (snd (line_ops line_spacing x y lines)
        == y - inject_Z (Z.of_nat (length lines)) * line_spacing)%Q.
Proof.
  induction lines as [| l rest IH]; intros y.
  - cbn [line_ops fst snd length]. split; [reflexivity |]. split.
    + intros k line H. destruct k; discriminate H.
    + cbn. ring.
  - destruct (IH (y - line_spacing)%Q) as (Hlen & Hk & Hy).
    cbn [line_ops fst snd length]. split; [now rewrite Hlen |]. split.
    + intros [| k] line H.
      * injection H as <-. exists y. split; [reflexivity |]. cbn. ring.
      * destruct (Hk k line H) as (yk & Hop & Hyk).
        exists yk. split; [exact Hop |].
        rewrite Hyk, inject_succ. ring.
    + rewrite Hy, inject_succ. ring.
Qed.

(** X1. [draw_multiline_text] draws one string per line the text is split
    into, in order, all at [x], the k-th at [y - k * line_spacing]; it adds
    to what the canvas holds already and keeps its target and page size; it
    returns the height under the last line. *)
Theorem draw_multiline_text_lines (rl : ReportLab) (line_spacing : Q)
    (c : Canvas) (text : string) (x y max_width : Q) :
  let lines := simpleSplit text "Times-Roman" 12 max_width in
  let r := FeeWaiver.draw_multiline_text line_spacing c text x y max_width in
  c_filename (fst r) = c_filename c
  /\ c_pagesize (fst r) = c_pagesize c
  /\ (exists ops,
         c_ops (fst r) = c_ops c ++ ops
         /\ length ops = length lines
         /\ forall (k : nat) (line : string),
             lines !! k = Some line ->
             exists yk,
               ops !! k = Some (op_drawString x yk line)
               /\ (yk == y - inject_Z (Z.of_nat k) * line_spacing)%Q)
  /\ (snd r == y - inject_Z (Z.of_nat (length lines)) * line_spacing)%Q.
Proof.
  intros lines r. subst r. rewrite draw_multiline_text_ops. fold lines.
  destruct (line_ops_lines line_spacing x lines y) as (Hlen & Hk & Hy).
  cbn [fst snd c_filename c_pagesize c_ops].
  split; [reflexivity |]. split; [reflexivity |]. split; [| exact Hy].
  exists (fst (line_ops line_spacing x y lines)). now repeat split.
Qed.

(** ** Runs from an arbitrary state *)

(** A call of a generator function in any state of the process: what was
    logged before stays, the styles are defined, then the blocks appended,
    then the one render call made. *)
Lemma generate_run_any (rl : ReportLab) (g : generator) :
  exists sty blocks content,
    forall p st, exists call,
      call_target call = p /\ call_content call = content
      /\ match call with
         | call_build doc flowables =>
           flowables = blocks /\ Forall (fits_frame doc) blocks
         | call_save _ => g = fee_waiver
         end
      /\ let logged :=
           (trace st ++ map EvStyle sty ++ map EvAppend blocks) ++ [EvRender call] in
         generate g p st
         = match render_write call (world st) with
           | inl e => Raise e (mkState (world st) (story_after g st blocks) logged)
           | inr w' =>
             Ok tt (mkState (generated g p w') (story_after g st blocks) logged)
           end.
Proof.
  destruct g.
  - destruct (complaint_shape_any rl) as (f & blocks & Hrun & Hf & Hfit).
    exists (defined_styles (f [])), blocks. eexists.
    intros p [w s0 t0]. eexists. split; [| split; [| split]]; cycle 3.
    { unfold generate. rewrite Hrun, build_then_print, Hf. reflexivity. }
    { reflexivity. }
    { cbv [call_content pagesize leftMargin rightMargin topMargin bottomMargin
           title author subject story]. reflexivity. }
    split; [reflexivity | apply Hfit].
  - destruct (cover_shape_any rl) as (f & blocks & Hrun & Hf & Hfit).
    exists (defined_styles (f [])), blocks. eexists.
    intros p [w s0 t0]. eexists. split; [| split; [| split]]; cycle 3.
    { unfold generate. rewrite Hrun, build_then_print, Hf. reflexivity. }
    { reflexivity. }
    { cbv [call_content pagesize leftMargin rightMargin topMargin bottomMargin
           title author subject story]. reflexivity. }
    split; [reflexivity | exact Hfit].
  - destruct (fee_waiver_ops rl) as (lines1 & lines2 & Hrun).
    exists [], [], (canvas_content LETTER (page_ops lines1 lines2)).
    intros p st. exists (call_save (mkCanvas p LETTER (page_ops lines1 lines2))).
    split; [reflexivity |]. split; [reflexivity |]. split; [reflexivity |].
    cbv zeta. unfold generate. rewrite Hrun. unfold save, render.
    cbn [map story_after generated]. rewrite !app_nil_r.
    destruct (render_write _ (world st)); reflexivity.
Qed.

Lemma trace_of_run_any (rl : ReportLab) (g : generator) (p : string) (st : State)
    (call : RenderCall) (blocks' : list Flowable) (logged : list Event) :
  generate g p st
  = match render_write call (world st) with
    | inl e => Raise e (mkState (world st) blocks' logged)
    | inr w' => Ok tt (mkState (generated g p w') blocks' logged)
    end ->
  trace (final_state (generate g p st)) = logged.
Proof.
  intros ->. destruct (render_write call (world st)); reflexivity.
Qed.

Lemma handed_styles (sty : list Style) : handed (map EvStyle sty) = [].
Proof. induction sty; [reflexivity | assumption]. Qed.

Lemma handed_appends (blocks : list Flowable) : handed (map EvAppend blocks) = [].
Proof. induction blocks; [reflexivity | assumption]. Qed.

(** X3. The three stages of a run come strictly one after the other: every
    style is defined before the first block is appended, and the one render
    call comes after the last append and ends the log. *)
Theorem stages_in_order (rl : ReportLab) (g : generator) (p : string) (w : World) :
  exists sty blocks call,
    run_trace (generate g p) w
    = map EvStyle sty ++ map EvAppend blocks ++ [EvRender call].
Proof.
  destruct (generate_run_any rl g) as (sty & blocks & content & H).
  destruct (H p (initial w)) as (call & _ & _ & _ & Heq).
  exists sty, blocks, call. unfold run_trace.
  rewrite (trace_of_run_any rl g p _ call _ _ Heq).
  cbn [initial trace app]. now rewrite <- app_assoc.
Qed.

(** X4. Blocks do not pile up from one call to the next: in whatever state
    of the process a generator function is called (whatever an earlier call
    left in the list, whatever was logged), it makes exactly one render
    call, and that call carries the same content as in any other call. *)
Theorem no_carry_over_between_calls (rl : ReportLab) (g : generator)
    (p1 p2 : string) (st1 st2 : State) :
  exists c1 c2,
    handed (trace (final_state (generate g p1 st1))) = handed (trace st1) ++ [c1]
    /\ handed (trace (final_state (generate g p2 st2))) = handed (trace st2) ++ [c2]
    /\ call_content c1 = call_content c2
    /\ call_target c1 = p1 /\ call_target c2 = p2.
Proof.
  destruct (generate_run_any rl g) as (sty & blocks & content & H).
  destruct (H p1 st1) as (c1 & Ht1 & Hc1 & _ & Heq1).
  destruct (H p2 st2) as (c2 & Ht2 & Hc2 & _ & Heq2).
  exists c1, c2.
  rewrite (trace_of_run_any rl g p1 _ c1 _ _ Heq1).
  rewrite (trace_of_run_any rl g p2 _ c2 _ _ Heq2).
  unfold handed at 1 3. rewrite !omap_app. fold handed.
  rewrite handed_styles, handed_appends. cbn [app].
  rewrite !app_nil_r.
  repeat split; try assumption; try reflexivity.
  now rewrite Hc1, Hc2.
Qed.

(** X5. Every table handed to the renderer fits its frame: its column
    widths add up to no more than the page width between the left and right
    margins of the document it is built into. *)
Theorem tables_fit_between_margins (rl : ReportLab) (g : generator) (p : string)
    (w : World) :
  Forall (fun call =>
            match call with
            | call_build doc flowables => Forall (fits_frame doc) flowables
            | call_save _ => True
            end)
         (handed (run_trace (generate g p) w)).
Proof.
  destruct (generate_run_any rl g) as (sty & blocks & content & H).
  destruct (H p (initial w)) as (call & _ & _ & Hd & Heq).
  unfold run_trace. rewrite (trace_of_run_any rl g p _ call _ _ Heq).
  unfold handed. rewrite !omap_app. fold handed.
  rewrite handed_styles, handed_appends. cbn [initial trace handed omap list_omap app].
  constructor; [| constructor].
  destruct call as [doc fl | c]; [| exact I].
  now destruct Hd as [-> Hfit].
Qed.

(** ** The fee waiver's page *)

Lemma last_app_cons {A} (l : list A) (x : A) (rest : list A) :
  last (l ++ x :: rest) = last (x :: rest).
Proof.
  induction l as [| a l IH]; [reflexivity |].
  cbn [app]. destruct (l ++ x :: rest) eqn:E.
  - destruct l; discriminate E.
  - exact IH.
Qed.

Lemma drawn_ys_app (a b : list CanvasOp) :
  drawn_ys (a ++ b) = drawn_ys a ++ drawn_ys b.
Proof. unfold drawn_ys. apply omap_app. Qed.

Lemma steps_down_lower (gap : Q) (ys : list Q) (top top' : Q) :
  (top <= top')%Q -> steps_down top gap ys -> steps_down top' gap ys.
Proof.
  destruct ys as [| y rest]; [easy |].
  intros Hle [Hy Hrest]. split; [| exact Hrest]. lra.
Qed.

Lemma line_ops_at_x (line_spacing x : Q) (lines : list string) :
  forall y,
    Forall (fun op => match op with
                      | op_drawString x' _ _ => x' = x
                      | _ => False
                      end)
           (fst (line_ops line_spacing x y lines)).
Proof.
  induction lines as [| l rest IH]; intros y; cbn [line_ops fst].
  - constructor.
  - constructor; [reflexivity | apply IH].
Qed.

Lemma line_ops_steps_down (gap x : Q) (lines : list string) :
  forall (y top : Q) (rest : list Q),
    (y <= top)%Q ->
    steps_down (snd (line_ops gap x y lines)) gap rest ->
    steps_down top gap (drawn_ys (fst (line_ops gap x y lines)) ++ rest).
Proof.
  induction lines as [| l more IH]; intros y top rest Hle Hrest.
  - cbn [line_ops fst snd] in *. now apply (steps_down_lower gap rest y top).
  - cbn [line_ops fst snd] in *.
    change (steps_down top gap
              (y :: (drawn_ys (fst (line_ops gap x (y - gap) more)) ++ rest))).
    split; [exact Hle |]. apply IH; [lra | exact Hrest].
Qed.

Lemma line_ops_no_page (line_spacing x : Q) (lines : list string) :
  forall y, List.filter is_showPage (fst (line_ops line_spacing x y lines)) = [].
Proof.
  induction lines as [| l rest IH]; intros y; cbn [line_ops fst]; [reflexivity |].
  cbn [List.filter is_showPage]. apply IH.
Qed.


Lemma fee_waiver_hands_page (rl : ReportLab) :
  exists lines1 lines2,
    forall p w,
      handed (run_trace (FeeWaiver.generate_fee_waiver_request p) w)
      = [call_save (mkCanvas p LETTER (page_ops lines1 lines2))].
Proof.
  destruct (fee_waiver_ops rl) as (lines1 & lines2 & Hrun).
  exists lines1, lines2. intros p w.
  unfold run_trace. rewrite Hrun. unfold save, render.
  destruct (render_write _ (world (initial w))); reflexivity.
Qed.

(** X6. However the library wraps the two texts, the fee waiver is drawn on
    one page of letter size: every string is drawn at the left margin of one
    inch, the first at one inch below the top edge and every next one at
    least one line (14 points) below the one before; the page is shown once,
    as the last operation before saving. *)
Theorem fee_waiver_single_column_page (rl : ReportLab) (p : string) (w : World) :
  exists c,
    handed (run_trace (FeeWaiver.generate_fee_waiver_request p) w) = [call_save c]
    /\ c_pagesize c = LETTER
    /\ Forall (fun op => match op with
                         | op_drawString x _ _ => x = inch
                         | _ => True
                         end) (c_ops c)
    /\ steps_down (snd LETTER - inch) 14 (drawn_ys (c_ops c))
    /\ hd_error (drawn_ys (c_ops c)) = Some (snd LETTER - inch)%Q
    /\ List.filter is_showPage (c_ops c) = [op_showPage]
    /\ last (c_ops c) = Some op_showPage.
Proof.
  destruct (fee_waiver_hands_page rl) as (lines1 & lines2 & H).
  eexists. split; [apply H |]. cbn [c_pagesize c_ops].
  split; [reflexivity |]. unfold page_ops. cbv zeta.
  set (top := (snd LETTER - inch)%Q).
  set (court := line_ops 14 inch (top - 2 * 14) lines1).
  set (statement := line_ops 14 inch (snd court - 14) lines2).
  split; [| split; [| split; [| split]]].
  - repeat (first [apply Forall_app; split | constructor]); try exact I;
      try reflexivity;
      (eapply Forall_impl; [apply line_ops_at_x |]);
      intros [] Hop; first [exact Hop | exact I | contradiction].
  - rewrite !drawn_ys_app.
    change (steps_down top 14
              (top :: (drawn_ys (fst court)
                       ++ (drawn_ys (fst statement)
                           ++ [(snd statement - 2 * 14)%Q;
                               (snd statement - 2 * 14 - 14)%Q])))).
    split; [lra |].
    apply line_ops_steps_down; [lra | fold court].
    apply line_ops_steps_down; [lra | fold statement].
    cbn [steps_down]. repeat split; lra.
  - reflexivity.
  - unfold statement, court.
    rewrite !List.filter_app, !line_ops_no_page. reflexivity.
  - rewrite !app_assoc. now rewrite last_app_cons.
Qed.

